(** * Request-processing state machine of [app/main.py]

    A shallow embedding of the intake handler [receive_request], the
    background pipeline [process_request] and the ledger helpers
    [load_processed] / [save_processed], followed by the properties of the
    specification that concern them.

    The collaborators that live outside [app/main.py] (code generation,
    the repository API, static hosting, the evaluation webhook, the local
    file system) are an arbitrary state machine [Services W]: every call
    takes the current external world [W] and answers with a value or a
    raised exception together with the next world.  Each call is also
    appended to a trace, so that "which calls were made, in which order,
    with which arguments" is a plain list.  [print] statements are
    logging only and are left out. *)

From Stdlib Require Import ZArith String List Ascii Bool.
From stdpp Require Import base option list strings gmap pretty.

Local Open Scope string_scope.
Local Open Scope list_scope.
Local Open Scope stdpp_scope.

(** ** Python values carried by the JSON body *)

(** The fields of a request that [main.py] inspects or formats are JSON
    scalars.  [PyObj] stands for a JSON array or object: the handler never
    looks inside one, it hands it to a collaborator or formats it, so it is
    carried by its rendering.  JSON floats are outside this model. *)
Inductive pyval :=
| PyNone
| PyBool (b : bool)
| PyInt (z : Z)
| PyStr (s : string)
| PyObj (rendering : string).

(** [str(v)], which is what an f-string placeholder [{v}] produces. *)
Definition py_str (v : pyval) : string :=
  match v with
  | PyNone => "None"
  | PyBool true => "True"
  | PyBool false => "False"
  | PyInt z => pretty z
  | PyStr s => s
  | PyObj r => r
  end.

(** [v == n] for an integer literal [n]: [bool] is a subclass of [int] in
    Python, so [True == 1] and [False == 0] hold; a string, [None], a list
    or a dict never equals an integer. *)
Definition py_eq_int (v : pyval) (n : Z) : bool :=
  match v with
  | PyInt z => Z.eqb z n
  | PyBool b => Z.eqb (if b then 1 else 0) n
  | _ => false
  end.

(** The result of [os.getenv]: a string, or [None] when unset. *)
Definition of_env (o : option string) : pyval :=
  match o with Some s => PyStr s | None => PyNone end.

(** [v == os.getenv(..)]. *)
Definition py_eq_env (v : pyval) (o : option string) : bool :=
  match v, o with
  | PyNone, None => true
  | PyStr s, Some t => String.eqb s t
  | _, _ => false
  end.

(** A JSON object / Python [dict] with string keys. *)
Abbreviation dict := (gmap string pyval).

(** [d.get(k, default)] *)
Definition dict_get (d : dict) (k : string) (default : pyval) : pyval :=
  match d !! k with Some v => v | None => default end.

(** ** Exceptions and results *)

(** [ServiceError mro] is an exception raised by a collaborator; [mro]
    lists the names of its class and of its base classes below
    [Exception].  Only subclasses of [Exception] are modelled. *)
Inductive exn :=
| KeyError (key : string)
| NameError (name : string)
| ServiceError (mro : list string).

Inductive result (A : Type) :=
| Ok (a : A)
| Raise (e : exn).
Arguments Ok {A} a.
Arguments Raise {A} e.

(** ** Records of the data model *)

Definition bytes := list Byte.byte.

(** A materialized attachment descriptor: [att["name"]], [att["path"]],
    [att["mime"]]. *)
Record attachment := Attachment {
  att_name : string;
  att_path : string;
  att_mime : string;
}.

(** The dict returned by [generate_app_code]; a key may be absent, which
    is why the pipeline reads it with [.get]. [files] keeps the insertion
    order of the Python dict. *)
Record generation := Generation {
  gen_files : option (list (string * string));
  gen_attachments : option (list attachment);
}.

Record repo := Repo {
  html_url : string;
}.

(** The Result Payload (lines 122-130). *)
Record payload := Payload {
  p_email : pyval;
  p_task : pyval;
  p_round : pyval;
  p_nonce : pyval;
  p_repo_url : string;
  p_commit_sha : option string;
  p_pages_url : option string;
}.

Abbreviation ledger := (gmap string payload).

(** What is stored at [PROCESSED_PATH]: nothing, text [raw] that is not a
    JSON document (the case in which [json.load] raises
    [JSONDecodeError]), or a table.  A file that cannot be opened or whose
    bytes are not text has no constructor here; reads that fail in those
    ways are covered by [load_processed_from] below, where the read is a
    parameter. *)
Inductive ledger_store :=
| NoFile
| Corrupt (raw : string)
| Stored (table : ledger).

(** ** Calls that leave [main.py] *)

(** One constructor per call site kind, with the arguments of the call:
    the collaborators imported at lines 4-12, [open(..).read()] at line
    81, [repo.get_contents] at line 52, [repo.get_commits()[0].sha] at
    line 117, and the two accesses to [PROCESSED_PATH].  An event is
    recorded when the call is made, whether it then returns or raises. *)
Inductive event :=
| EvDecodeAttachments (attachments : pyval)
| EvCreateRepo (task_id : pyval) (description : string)
| EvGetContents (path : string)
| EvGenerate (brief attachments checks round_num : pyval)
             (prev_readme : option string)
| EvOpen (path : string)
| EvCommitText (path content message : string)
| EvCommitBinary (path : string) (content : bytes) (message : string)
| EvMitLicense
| EvEnablePages (task_id : pyval)
| EvGetCommits
| EvNotify (url : pyval) (body : payload)
| EvLoadLedger
| EvSaveLedger (table : ledger).

(** The collaborators are not defined in [main.py]; they are taken as
    parameters.  Each one maps its arguments and the current world to an
    answer (a value or a raised exception) and the next world, so an
    answer may depend on everything that happened before.  The two codec
    functions of the standard library are pure. *)
Record Services (W : Type) := {
  svc_decode_attachments : pyval -> W -> result (list attachment) * W;
  svc_create_repo : pyval -> string -> W -> result repo * W;
  svc_get_contents : repo -> string -> W -> result bytes * W;
  svc_generate_app_code :
    pyval -> pyval -> pyval -> pyval -> option string ->
    W -> result generation * W;
  svc_open_read : string -> W -> result bytes * W;
  svc_create_or_update_file :
    repo -> string -> string -> string -> W -> result unit * W;
  svc_create_or_update_binary_file :
    repo -> string -> bytes -> string -> W -> result unit * W;
  svc_generate_mit_license : W -> result string * W;
  svc_enable_pages : pyval -> W -> result bool * W;
  svc_latest_commit_sha : repo -> W -> result string * W;
  svc_notify_evaluation_server : pyval -> payload -> W -> result unit * W;
  (** [bytes.decode("utf-8", errors="ignore")] *)
  utf8_decode_ignore : bytes -> string;
  (** [base64.b64encode(..).decode("utf-8")] *)
  b64encode : bytes -> string;
}.
Arguments svc_decode_attachments {W}.
Arguments svc_create_repo {W}.
Arguments svc_get_contents {W}.
Arguments svc_generate_app_code {W}.
Arguments svc_open_read {W}.
Arguments svc_create_or_update_file {W}.
Arguments svc_create_or_update_binary_file {W}.
Arguments svc_generate_mit_license {W}.
Arguments svc_enable_pages {W}.
Arguments svc_latest_commit_sha {W}.
Arguments svc_notify_evaluation_server {W}.
Arguments utf8_decode_ignore {W}.
Arguments b64encode {W}.

(** [USER_SECRET] and [USERNAME], read from the environment at import. *)
Record Config := {
  USER_SECRET : option string;
  USERNAME : option string;
}.

(** ** The state threaded through a handler *)

Record state (W : Type) := State {
  world : W;
  ledger_file : ledger_store;
  trace : list event;
  background_tasks : list dict;
}.
Arguments State {W}.
Arguments world {W}.
Arguments ledger_file {W}.
Arguments trace {W}.
Arguments background_tasks {W}.

(** State and exception monad. *)
Definition M (W A : Type) : Type := state W -> result A * state W.

Definition ret {W A} (a : A) : M W A := fun st => (Ok a, st).

Definition raise {W A} (e : exn) : M W A := fun st => (Raise e, st).

Definition bind {W A B} (m : M W A) (k : A -> M W B) : M W B :=
  fun st =>
    match m st with
    | (Ok a, st') => k a st'
    | (Raise e, st') => (Raise e, st')
    end.

Notation "x <- m ;; k" := (bind m (fun x => k))
  (at level 20, m at level 99, k at level 200, only parsing).
Notation "m ;;; k" := (bind m (fun _ => k))
  (at level 100, k at level 200, only parsing, right associativity).

(** [try: body / except Exception: handler] *)
Definition try_except {W A} (body : M W A) (handler : exn -> M W A) : M W A :=
  fun st =>
    match body st with
    | (Ok a, st') => (Ok a, st')
    | (Raise e, st') => handler e st'
    end.

(** The names bound in the module namespace of [main.py] once it is
    imported: its imports (lines 1-13), its assignments and its [def]s. *)
Definition module_globals : list string :=
  [ "FastAPI"; "Request"; "BackgroundTasks"; "os"; "json"; "base64";
    "load_dotenv"; "generate_app_code"; "decode_attachments";
    "create_repo"; "create_or_update_file"; "enable_pages";
    "generate_mit_license"; "create_or_update_binary_file";
    "notify_evaluation_server"; "OpenAI";
    "USER_SECRET"; "USERNAME"; "OPENAI_API_KEY"; "PROCESSED_PATH"; "app";
    "load_processed"; "save_processed"; "process_request";
    "root"; "receive_request"; "evaluate" ].

(** The class of an exception followed by its base classes. *)
Definition exn_mro (e : exn) : list string :=
  match e with
  | KeyError _ => ["KeyError"; "LookupError"; "Exception"]
  | NameError _ => ["NameError"; "Exception"]
  | ServiceError mro => mro ++ ["Exception"]
  end.

Definition isinstance (e : exn) (cls : string) : bool :=
  bool_decide (cls ∈ exn_mro e).

(** A call to a collaborator: recorded, then answered by the world. *)
Definition call {W A} (ev : event) (f : W -> result A * W) : M W A :=
  fun st =>
    let '(r, w) := f (world st) in
    (r, State w (ledger_file st) (trace st ++ [ev]) (background_tasks st)).

(** [d[k]] *)
Definition getitem {W} (d : dict) (k : string) : M W pyval :=
  match d !! k with
  | Some v => ret v
  | None => raise (KeyError k)
  end.

(** [for x in xs: body(x)] *)
Fixpoint for_each {W A} (xs : list A) (body : A -> M W unit) : M W unit :=
  match xs with
  | [] => ret tt
  | x :: rest => body x ;;; for_each rest body
  end.

(** [global name]: evaluating a bare name at module level. *)
Definition global {W} (name : string) : M W string :=
  if bool_decide (name ∈ module_globals) then ret name
  else raise (NameError name).

(** ** String helpers of the attachment routing *)

(** [s.startswith(p)] *)
Definition startswith (s p : string) : bool := String.prefix p s.

(** [s.endswith(p)] *)
Definition endswith (s p : string) : bool :=
  String.prefix (String.rev p) (String.rev s).

(** Line 83: [att["mime"].startswith("text") or
    att["name"].endswith((".md", ".csv", ".json", ".txt"))]. *)
Definition is_text (att : attachment) : bool :=
  startswith (att_mime att) "text"
  || existsb (endswith (att_name att)) [".md"; ".csv"; ".json"; ".txt"].

(** The response bodies are flat JSON objects of strings. *)
Definition response := list (string * string).

(** Working variables of [process_request] once generation is done. *)
Record locals := Locals {
  round_num : pyval;
  task_id : pyval;
  the_repo : repo;
  files : list (string * string);
  saved_info : list attachment;
}.

(** Lines 69-70. *)
Definition fallback_generation : generation :=
  Generation (Some [("index.html", "<html><body><h1>Fallback</h1></body></html>")])
             (Some []).

(** The spec's wording of the Idempotency Key:
    [email::task::round<R>::nonce<N>]. *)
Definition spec_idempotency_key (email task round nonce : pyval) : string :=
  py_str email +:+ "::" +:+ py_str task +:+ "::" +:+
  "round" +:+ py_str round +:+ "::" +:+ "nonce" +:+ py_str nonce.

Section Pipeline.

Context {W : Type} (svc : Services W) (cfg : Config).

(** *** Collaborator calls *)

Definition decode_attachments (attachments : pyval) : M W (list attachment) :=
  call (EvDecodeAttachments attachments)
       (svc_decode_attachments svc attachments).

Definition create_repo (task : pyval) (description : string) : M W repo :=
  call (EvCreateRepo task description) (svc_create_repo svc task description).

Definition get_contents (r : repo) (path : string) : M W bytes :=
  call (EvGetContents path) (svc_get_contents svc r path).

Definition generate_app_code (brief attachments checks round : pyval)
    (prev_readme : option string) : M W generation :=
  call (EvGenerate brief attachments checks round prev_readme)
       (svc_generate_app_code svc brief attachments checks round prev_readme).

Definition open_read (path : string) : M W bytes :=
  call (EvOpen path) (svc_open_read svc path).

Definition create_or_update_file (r : repo) (path content message : string)
    : M W unit :=
  call (EvCommitText path content message)
       (svc_create_or_update_file svc r path content message).

Definition create_or_update_binary_file (r : repo) (path : string)
    (content : bytes) (message : string) : M W unit :=
  call (EvCommitBinary path content message)
       (svc_create_or_update_binary_file svc r path content message).

Definition generate_mit_license : M W string :=
  call EvMitLicense (svc_generate_mit_license svc).

Definition enable_pages (task : pyval) : M W bool :=
  call (EvEnablePages task) (svc_enable_pages svc task).

Definition latest_commit_sha (r : repo) : M W string :=
  call EvGetCommits (svc_latest_commit_sha svc r).

Definition notify_evaluation_server (url : pyval) (body : payload) : M W unit :=
  call (EvNotify url body) (svc_notify_evaluation_server svc url body).

(** *** Persistence for processed requests (lines 24-33) *)

(** [os.path.exists(PROCESSED_PATH)], recorded as the ledger access. *)
Definition path_exists : M W bool :=
  fun st =>
    (Ok (match ledger_file st with NoFile => false | _ => true end),
     State (world st) (ledger_file st) (trace st ++ [EvLoadLedger])
           (background_tasks st)).

(** [json.load(open(PROCESSED_PATH))] *)
Definition json_load : M W ledger :=
  fun st =>
    match ledger_file st with
    | Stored table => (Ok table, st)
    | Corrupt _ => (Raise (ServiceError ["JSONDecodeError"; "ValueError"]), st)
    | NoFile => (Raise (ServiceError ["FileNotFoundError"; "OSError"]), st)
    end.

(** The [except] clause of a [try] that names the class to catch: the
    class expression is evaluated once [body] has raised. *)
Definition try_except_cls {A} (body : M W A) (cls : M W string)
    (handler : exn -> M W A) : M W A :=
  fun st =>
    match body st with
    | (Ok a, st') => (Ok a, st')
    | (Raise e, st') =>
        match cls st' with
        | (Ok c, st'') =>
            if isinstance e c then handler e st'' else (Raise e, st'')
        | (Raise e', st'') => (Raise e', st'')
        end
    end.

(** Lines 24-30. *)
Definition load_processed : M W ledger :=
  exists_ <- path_exists;;
  if (exists_ : bool) then
    try_except_cls json_load
      (global "json";;; ret "JSONDecodeError")
      (fun _ => ret ∅)
  else ret ∅.

(** Lines 32-33: the whole table is written back.  The write itself is
    taken to succeed. *)
Definition save_processed (data : ledger) : M W unit :=
  fun st =>
    (Ok tt,
     State (world st) (Stored data) (trace st ++ [EvSaveLedger data])
           (background_tasks st)).

(** *** The two places that format the idempotency key *)

(** Line 159, the f-string of the intake handler. *)
Definition intake_key (data : dict) : M W string :=
  email <- getitem data "email";;
  task <- getitem data "task";;
  round <- getitem data "round";;
  nonce <- getitem data "nonce";;
  ret (py_str email +:+ "::" +:+ py_str task +:+ "::round" +:+ py_str round
       +:+ "::nonce" +:+ py_str nonce).

(** Line 138, the f-string of the pipeline. *)
Definition persist_key (data : dict) (round : pyval) : M W string :=
  email <- getitem data "email";;
  task <- getitem data "task";;
  nonce <- getitem data "nonce";;
  ret (py_str email +:+ "::" +:+ py_str task +:+ "::round" +:+ py_str round
       +:+ "::nonce" +:+ py_str nonce).

(** *** Background task (lines 36-142) *)

(** Lines 37-73: repository, previous README, generation. *)
Definition prepare (data : dict) : M W locals :=
  let round := dict_get data "round" (PyInt 1) in
  task <- getitem data "task";;
  let attachments := dict_get data "attachments" (PyObj "[]") in
  decode_attachments attachments;;;
  (* Step 1: Get or create repo *)
  brief <- getitem data "brief";;
  r <- create_repo task ("Auto-generated app for task: " +:+ py_str brief);;
  (* Optional: fetch previous README for round 2 *)
  prev_readme <-
    (if py_eq_int round 2 then
       try_except
         (readme <- get_contents r "README.md";;
          ret (Some (utf8_decode_ignore svc readme)))
         (fun _ => ret None)
     else ret None);;
  (* Step 2: Generate app code *)
  gen <-
    try_except_cls
      (brief <- getitem data "brief";;
       generate_app_code brief attachments
         (dict_get data "checks" (PyObj "[]")) round prev_readme)
      (global "OpenAIError")
      (fun _ => ret fallback_generation);;
  ret (Locals round task r
         (default [] (gen_files gen))
         (default [] (gen_attachments gen))).

(** Lines 79-91: the body of the attachment loop. *)
Definition commit_attachment (r : repo) (att : attachment) : M W unit :=
  let path := att_name att in
  try_except
    (content_bytes <- open_read (att_path att);;
     if is_text att then
       let text := utf8_decode_ignore svc content_bytes in
       create_or_update_file r path text ("Add attachment " +:+ path)
     else
       (create_or_update_binary_file r path content_bytes
          ("Add binary " +:+ path);;;
        let b64 := b64encode svc content_bytes in
        create_or_update_file r
          ("attachments/" +:+ att_name att +:+ ".b64") b64
          ("Backup " +:+ att_name att +:+ ".b64")))
    (fun _ => ret tt).

(** Step 3: Round-specific logic (lines 76-95). *)
Definition round_specific (l : locals) : M W unit :=
  if py_eq_int (round_num l) 1 then
    for_each (saved_info l) (commit_attachment (the_repo l))
  else
    for_each (files l) (fun '(fname, content) =>
      create_or_update_file (the_repo l) fname content
        ("Update " +:+ fname +:+ " for round 2")).

(** Step 4: Common steps (lines 98-102). *)
Definition common_steps (l : locals) : M W unit :=
  for_each (files l) (fun '(fname, content) =>
    create_or_update_file (the_repo l) fname content
      ("Add/Update " +:+ fname));;;
  mit_text <- generate_mit_license;;
  create_or_update_file (the_repo l) "LICENSE" mit_text "Add MIT license".

(** The public URL [f"https://{USERNAME}.github.io/{task_id}/"]. *)
Definition public_url (task : pyval) : string :=
  "https://" +:+ py_str (of_env (USERNAME cfg)) +:+ ".github.io/"
  +:+ py_str task +:+ "/".

(** Step 5: GitHub Pages handling (lines 105-113). *)
Definition pages_handling (l : locals) : M W (option string) :=
  try_except
    (if py_eq_int (round_num l) 1 then
       pages_ok <- enable_pages (task_id l);;
       ret (if (pages_ok : bool) then Some (public_url (task_id l)) else None)
     else ret (Some (public_url (task_id l))))
    (fun _ => ret None).

(** Step 6: Commit SHA (lines 116-119). *)
Definition resolve_commit_sha (l : locals) : M W (option string) :=
  try_except
    (sha <- latest_commit_sha (the_repo l);; ret (Some sha))
    (fun _ => ret None).

(** Steps 5-8 (lines 104-140). *)
Definition report (data : dict) (l : locals) : M W unit :=
  pages_url <- pages_handling l;;
  commit_sha <- resolve_commit_sha l;;
  (* Step 7: Notify evaluation server *)
  email <- getitem data "email";;
  task <- getitem data "task";;
  nonce <- getitem data "nonce";;
  let body :=
    Payload email task (round_num l) nonce (html_url (the_repo l))
            commit_sha pages_url in
  try_except
    (url <- getitem data "evaluation_url";;
     notify_evaluation_server url body)
    (fun _ => ret tt);;;
  (* Step 8: Save processed *)
  processed <- load_processed;;
  key <- persist_key data (round_num l);;
  save_processed (<[key := body]> processed).

Definition process_request (data : dict) : M W unit :=
  l <- prepare data;;
  round_specific l;;;
  common_steps l;;;
  report data l.

(** *** API endpoint (lines 149-171) *)

(** [background_tasks.add_task(process_request, data)] *)
Definition add_task (data : dict) : M W unit :=
  fun st =>
    (Ok tt,
     State (world st) (ledger_file st) (trace st)
           (background_tasks st ++ [data])).

Definition receive_request (data : dict) : M W response :=
  (* Verify secret *)
  if negb (py_eq_env (dict_get data "secret" PyNone) (USER_SECRET cfg)) then
    ret [("error", "Invalid secret")]
  else
    processed <- load_processed;;
    key <- intake_key data;;
    (* Duplicate detection *)
    match (processed : ledger) !! key with
    | Some stored =>
        try_except
          (notify_evaluation_server
             (dict_get data "evaluation_url" PyNone) stored)
          (fun _ => ret tt);;;
        ret [("status", "ok"); ("note", "duplicate handled & re-notified")]
    | None =>
        (* Schedule background task *)
        add_task data;;;
        round <- getitem data "round";;
        ret [("status", "accepted");
             ("note", "processing round " +:+ py_str round +:+ " started")]
    end.

End Pipeline.

Arguments process_request {W} svc cfg data.
Arguments receive_request {W} svc cfg data.

(** ** Reading a run *)

(** The table a ledger read yields for a given store (lines 24-30). *)
Definition table_of (f : ledger_store) : ledger :=
  match f with Stored t => t | _ => ∅ end.

(** Repository writes: [create_or_update_file] and
    [create_or_update_binary_file]. *)
Definition is_commit (e : event) : bool :=
  match e with
  | EvCommitText _ _ _ | EvCommitBinary _ _ _ => true
  | _ => false
  end.

Definition commits (tr : list event) : list event :=
  List.filter is_commit tr.

(** The repository writes whose target is one of [paths]. *)
Definition commits_to (paths : list string) (tr : list event) : list event :=
  List.filter (fun e => match e with
                   | EvCommitText p _ _ | EvCommitBinary p _ _ =>
                       bool_decide (p ∈ paths)
                   | _ => false
                   end) tr.

(** The notification calls of a trace. *)
Definition notifications (tr : list event) : list event :=
  List.filter (fun e => match e with EvNotify _ _ => true | _ => false end) tr.

(** The calls to hosting activation in a trace. *)
Definition activations (tr : list event) : list event :=
  List.filter (fun e => match e with EvEnablePages _ => true | _ => false end)
              tr.

(** [advance st w evs]: the state after some collaborator calls [evs] that
    moved the world to [w]; the ledger file and the scheduled tasks are
    untouched. *)
Definition advance {W} (st : state W) (w : W) (evs : list event) : state W :=
  State w (ledger_file st) (trace st ++ evs) (background_tasks st).

(** [emits P m]: whatever [m] does and however it ends, it only appends
    events to the trace, and each of them satisfies [P]. *)
Definition emits {W A} (P : event -> Prop) (m : M W A) : Prop :=
  forall st, exists evs,
    trace (snd (m st)) = trace st ++ evs /\ Forall P evs.

(** Events of the preparation phase (lines 37-73). *)
Definition is_setup (e : event) : Prop :=
  match e with
  | EvDecodeAttachments _ | EvCreateRepo _ _ | EvGetContents _
  | EvGenerate _ _ _ _ _ => True
  | _ => False
  end.

(** Events of Steps 5-8. *)
Definition is_report (e : event) : Prop :=
  match e with
  | EvEnablePages _ | EvGetCommits | EvNotify _ _ | EvLoadLedger
  | EvSaveLedger _ => True
  | _ => False
  end.

(** Events the revision branch can produce after preparation: text commits
    of generated files and of the license, and the reporting calls other
    than hosting activation. *)
Definition is_revision (l : locals) (e : event) : Prop :=
  match e with
  | EvCommitText p c _ => (p, c) ∈ files l \/ p = "LICENSE"
  | EvMitLicense | EvGetCommits | EvNotify _ _ | EvLoadLedger
  | EvSaveLedger _ => True
  | _ => False
  end.

Section Observations.

Context {W : Type} (svc : Services W) (cfg : Config).
Implicit Types (data : dict) (l : locals).

(** The value Step 5 leaves in [pages_url], read off the answer of the
    hosting service in the current world. *)
Definition pages_outcome l (w : W) : option string :=
  if py_eq_int (round_num l) 1 then
    match fst (svc_enable_pages svc (task_id l) w) with
    | Ok true => Some (public_url cfg (task_id l))
    | _ => None
    end
  else Some (public_url cfg (task_id l)).

Definition pages_world l (w : W) : W :=
  if py_eq_int (round_num l) 1 then snd (svc_enable_pages svc (task_id l) w)
  else w.

Definition pages_events l : list event :=
  if py_eq_int (round_num l) 1 then [EvEnablePages (task_id l)] else [].

Definition sha_outcome l (w : W) : option string :=
  match fst (svc_latest_commit_sha svc (the_repo l) w) with
  | Ok sha => Some sha
  | Raise _ => None
  end.

(** The guarded notification of Step 7. *)
Definition notify_events data (body : payload) : list event :=
  match data !! "evaluation_url" with
  | Some url => [EvNotify url body]
  | None => []
  end.

Definition notify_world data (body : payload) (w : W) : W :=
  match data !! "evaluation_url" with
  | Some url => snd (svc_notify_evaluation_server svc url body w)
  | None => w
  end.

(** The payload assembled at lines 122-130, given the world in which the
    hosting step starts. *)
Definition payload_of data l (w : W) (e t n : pyval) : payload :=
  Payload e t (round_num l) n (html_url (the_repo l))
    (sha_outcome l (pages_world l w)) (pages_outcome l w).

(** [n] submissions of the same request, one after the other. *)
Fixpoint resubmit data (n : nat) : M W unit :=
  match n with
  | O => ret tt
  | S k => receive_request svc cfg data ;;; resubmit data k
  end.

(** Every text and binary upsert succeeds, in every world. *)
Definition upserts_succeed : Prop :=
  (forall r p c m w, fst (svc_create_or_update_file svc r p c m w) = Ok tt)
  /\ (forall r p c m w,
        fst (svc_create_or_update_binary_file svc r p c m w) = Ok tt).

(** Attachment files can be read and the license text is available. *)
Definition reads_succeed : Prop :=
  (forall p w, exists b, fst (svc_open_read svc p w) = Ok b)
  /\ (forall w, exists text, fst (svc_generate_mit_license svc w) = Ok text).

End Observations.

(** ** Concrete scenarios

    A small world that counts the calls it has answered.  A scenario fixes
    how generation, hosting activation, commit lookup and notification
    answer, and which attachment paths cannot be opened. *)

Record scenario := Scenario {
  sc_generate : result generation;
  sc_pages : result bool;
  sc_sha : result string;
  sc_notify : result unit;
  sc_unreadable : list string;
}.

Definition demo_services (sc : scenario) : Services nat := {|
  svc_decode_attachments := fun _ n => (Ok [], S n);
  svc_create_repo := fun task _ n =>
    (Ok (Repo ("https://github.com/octo/" +:+ py_str task)), S n);
  svc_get_contents := fun _ _ n =>
    (Raise (ServiceError ["UnknownObjectException"; "GithubException"]), S n);
  svc_generate_app_code := fun _ _ _ _ _ n => (sc_generate sc, S n);
  svc_open_read := fun path n =>
    (if bool_decide (path ∈ sc_unreadable sc)
     then Raise (ServiceError ["FileNotFoundError"; "OSError"])
     else Ok (list_byte_of_string path), S n);
  svc_create_or_update_file := fun _ _ _ _ n => (Ok tt, S n);
  svc_create_or_update_binary_file := fun _ _ _ _ n => (Ok tt, S n);
  svc_generate_mit_license := fun n => (Ok "MIT License", S n);
  svc_enable_pages := fun _ n => (sc_pages sc, S n);
  svc_latest_commit_sha := fun _ n => (sc_sha sc, S n);
  svc_notify_evaluation_server := fun _ _ n => (sc_notify sc, S n);
  utf8_decode_ignore := string_of_list_byte;
  b64encode := fun bs => "base64:" +:+ string_of_list_byte bs;
|}.

Definition demo_config : Config :=
  {| USER_SECRET := Some "s3cret"; USERNAME := Some "octo" |}.

Definition demo_files : list (string * string) :=
  [("index.html", "<html></html>"); ("README.md", "# demo")].

Definition demo_logo : attachment :=
  Attachment "logo.png" "/tmp/logo.png" "image/png".

Definition demo_generation : generation :=
  Generation (Some demo_files) (Some [demo_logo]).

Definition all_well : scenario :=
  Scenario (Ok demo_generation) (Ok true) (Ok "abc123") (Ok tt) [].

Definition demo_request (round : pyval) : dict :=
  list_to_map
    [("email", PyStr "a@b.c"); ("secret", PyStr "s3cret");
     ("task", PyStr "demo"); ("round", round); ("nonce", PyStr "n1");
     ("brief", PyStr "a page"); ("evaluation_url", PyStr "https://eval/")].

Definition idle : state nat := State 0 NoFile [] [].

Definition corrupted : state nat := State 0 (Corrupt "{oops") [] [].

(** The locals and the state that [prepare] yields for [demo_request] when
    generation answers [demo_generation]. *)
Definition demo_locals (round : pyval) : locals :=
  Locals round (PyStr "demo") (Repo "https://github.com/octo/demo")
         demo_files [demo_logo].

Definition generation_down : scenario :=
  Scenario
    (Raise (ServiceError
              ["RateLimitError"; "APIStatusError"; "APIError"; "OpenAIError"]))
    (Ok true) (Ok "abc123") (Ok tt) [].

Definition pages_down : scenario :=
  Scenario (Ok demo_generation)
    (Raise (ServiceError ["GithubException"])) (Ok "abc123") (Ok tt) [].

Definition demo_payload : payload :=
  Payload (PyStr "a@b.c") (PyStr "demo") (PyInt 1) (PyStr "n1")
    "https://github.com/octo/demo" (Some "abc123")
    (Some "https://octo.github.io/demo/").

(** The state after the pipeline has served [demo_request (PyInt 1)]. *)
Definition served : state nat :=
  snd (process_request (demo_services all_well) demo_config
         (demo_request (PyInt 1)) idle).

Definition wrong_secret (data : dict) : dict :=
  <["secret" := PyStr "guess"]> data.

Definition demo_notes : attachment :=
  Attachment "notes.txt" "/tmp/notes.txt" "text/plain".

Definition demo_data_csv : attachment :=
  Attachment "data.csv" "/tmp/data.csv" "application/octet-stream".

Definition three_attachments : generation :=
  Generation (Some demo_files) (Some [demo_notes; demo_logo; demo_data_csv]).

(** Generation names three attachments; the second cannot be opened. *)
Definition second_unreadable : scenario :=
  Scenario (Ok three_attachments) (Ok true) (Ok "abc123") (Ok tt)
           ["/tmp/logo.png"].

(** The state in which [prepare] leaves a run started from [idle]. *)
Definition prepared (sc : scenario) (round : pyval) : state nat :=
  snd (prepare (demo_services sc) (demo_request round) idle).

(** The state after Steps 3 and 4 of such a run. *)
Definition published (sc : scenario) (l : locals) (round : pyval) : state nat :=
  snd ((round_specific (demo_services sc) l ;;;
        common_steps (demo_services sc) l) (prepared sc round)).

(** ** The remaining endpoints *)

(** Lines 145-147. *)
Definition root {W} : M W response := ret [("message", "API running!")].

(** Lines 172-176: the body is echoed next to a fixed status. *)
Definition evaluate {W} (data : dict) : M W (string * dict) :=
  ret ("Evaluation received successfully", data).

(** ** Further readings of a run *)

(** [keeps f m]: [m] leaves the component [f] of the state as it found it,
    however it ends. *)
Definition keeps {W A X} (f : state W -> X) (m : M W A) : Prop :=
  forall st, f (snd (m st)) = f st.

(** The only calls the intake handler can make. *)
Definition is_intake (e : event) : Prop :=
  match e with
  | EvLoadLedger | EvNotify _ _ => True
  | _ => False
  end.

(** Events of Steps 3 and 4. *)
Definition is_publish (e : event) : Prop :=
  match e with
  | EvOpen _ | EvCommitText _ _ _ | EvCommitBinary _ _ _ | EvMitLicense => True
  | _ => False
  end.

(** Steps 3 and 4 in sequence (lines 75-102). *)
Definition publish {W} (svc : Services W) (l : locals) : M W unit :=
  round_specific svc l ;;; common_steps svc l.

(** Further scenarios: the commit lookup raises; the webhook raises. *)
Definition sha_down : scenario :=
  Scenario (Ok demo_generation) (Ok true)
    (Raise (ServiceError ["IndexError"; "LookupError"])) (Ok tt) [].

Definition notify_down : scenario :=
  Scenario (Ok demo_generation) (Ok true) (Ok "abc123")
    (Raise (ServiceError ["ConnectionError"; "RequestException"])) [].

(** The demo services with a repository that rejects binary uploads. *)
Definition binary_rejected : Services nat := {|
  svc_decode_attachments := svc_decode_attachments (demo_services all_well);
  svc_create_repo := svc_create_repo (demo_services all_well);
  svc_get_contents := svc_get_contents (demo_services all_well);
  svc_generate_app_code := svc_generate_app_code (demo_services all_well);
  svc_open_read := svc_open_read (demo_services all_well);
  svc_create_or_update_file :=
    svc_create_or_update_file (demo_services all_well);
  svc_create_or_update_binary_file := fun _ _ _ _ n =>
    (Raise (ServiceError ["GithubException"]), S n);
  svc_generate_mit_license :=
    svc_generate_mit_license (demo_services all_well);
  svc_enable_pages := svc_enable_pages (demo_services all_well);
  svc_latest_commit_sha := svc_latest_commit_sha (demo_services all_well);
  svc_notify_evaluation_server :=
    svc_notify_evaluation_server (demo_services all_well);
  utf8_decode_ignore := utf8_decode_ignore (demo_services all_well);
  b64encode := b64encode (demo_services all_well);
|}.

(** The demo services with a repository that rejects the upsert of
    [index.html] and accepts every other one. *)
Definition index_rejected : Services nat := {|
  svc_decode_attachments := svc_decode_attachments (demo_services all_well);
  svc_create_repo := svc_create_repo (demo_services all_well);
  svc_get_contents := svc_get_contents (demo_services all_well);
  svc_generate_app_code := svc_generate_app_code (demo_services all_well);
  svc_open_read := svc_open_read (demo_services all_well);
  svc_create_or_update_file := fun _ path _ _ n =>
    (if bool_decide (path = "index.html")
     then Raise (ServiceError ["GithubException"]) else Ok tt, S n);
  svc_create_or_update_binary_file :=
    svc_create_or_update_binary_file (demo_services all_well);
  svc_generate_mit_license :=
    svc_generate_mit_license (demo_services all_well);
  svc_enable_pages := svc_enable_pages (demo_services all_well);
  svc_latest_commit_sha := svc_latest_commit_sha (demo_services all_well);
  svc_notify_evaluation_server :=
    svc_notify_evaluation_server (demo_services all_well);
  utf8_decode_ignore := utf8_decode_ignore (demo_services all_well);
  b64encode := b64encode (demo_services all_well);
|}.

(** A configuration in which [USER_SECRET] was never set. *)
Definition no_secret_config : Config :=
  {| USER_SECRET := None; USERNAME := Some "octo" |}.

(** The demo request with one field removed. *)
Definition without (k : string) (data : dict) : dict := delete k data.

(** The key of the Round-1 demo request. *)
Definition demo_key : string := "a@b.c::demo::round1::noncen1".

(** ** The handlers with the ledger read left open

    [load_processed] as embedded above reads a store that is absent, that
    holds text which [json.load] rejects with [JSONDecodeError], or that
    holds a table.  The definitions below are the same lines of [main.py]
    with the read itself as a parameter, so that a read failing in any
    other way (bytes that are not text, a file that cannot be opened) is
    covered too. *)

Section OpenLedger.

Context {W : Type} (svc : Services W) (cfg : Config).

(** Lines 24-30, with [json.load(open(PROCESSED_PATH))] as [reader]. *)
Definition load_processed_from (reader : M W ledger) : M W ledger :=
  exists_ <- path_exists;;
  if (exists_ : bool) then
    try_except_cls reader
      (global "json";;; ret "JSONDecodeError")
      (fun _ => ret ∅)
  else ret ∅.

(** Lines 149-171, with the call of line 158 as [load]. *)
Definition receive_request_with (load : M W ledger) (data : dict)
    : M W response :=
  (* Verify secret *)
  if negb (py_eq_env (dict_get data "secret" PyNone) (USER_SECRET cfg)) then
    ret [("error", "Invalid secret")]
  else
    processed <- load;;
    key <- intake_key data;;
    (* Duplicate detection *)
    match (processed : ledger) !! key with
    | Some stored =>
        try_except
          (notify_evaluation_server svc
             (dict_get data "evaluation_url" PyNone) stored)
          (fun _ => ret tt);;;
        ret [("status", "ok"); ("note", "duplicate handled & re-notified")]
    | None =>
        (* Schedule background task *)
        add_task data;;;
        round <- getitem data "round";;
        ret [("status", "accepted");
             ("note", "processing round " +:+ py_str round +:+ " started")]
    end.

(** Steps 5-8 (lines 104-140), with the call of line 137 as [load]. *)
Definition report_with (load : M W ledger) (data : dict) (l : locals)
    : M W unit :=
  pages_url <- pages_handling svc cfg l;;
  commit_sha <- resolve_commit_sha svc l;;
  (* Step 7: Notify evaluation server *)
  email <- getitem data "email";;
  task <- getitem data "task";;
  nonce <- getitem data "nonce";;
  let body :=
    Payload email task (round_num l) nonce (html_url (the_repo l))
            commit_sha pages_url in
  try_except
    (url <- getitem data "evaluation_url";;
     notify_evaluation_server svc url body)
    (fun _ => ret tt);;;
  (* Step 8: Save processed *)
  processed <- load;;
  key <- persist_key data (round_num l);;
  save_processed (<[key := body]> processed).

(** Lines 36-142, with the call of line 137 as [load]. *)
Definition process_request_with (load : M W ledger) (data : dict)
    : M W unit :=
  l <- prepare svc data;;
  round_specific svc l;;;
  common_steps svc l;;;
  report_with load data l.

(** *** What Step 3 and Step 4 do when their calls succeed *)

(** The commits of lines 83-89 for an attachment read as [content]. *)
Definition attachment_commits (a : attachment) (content : bytes)
    : list event :=
  if is_text a then
    [EvCommitText (att_name a) (utf8_decode_ignore svc content)
       ("Add attachment " +:+ att_name a)]
  else
    [EvCommitBinary (att_name a) content ("Add binary " +:+ att_name a);
     EvCommitText ("attachments/" +:+ att_name a +:+ ".b64")
       (b64encode svc content) ("Backup " +:+ att_name a +:+ ".b64")].

(** The calls of the loop body for an attachment that goes through. *)
Definition attachment_calls (a : attachment) (content : bytes) : list event :=
  EvOpen (att_path a) :: attachment_commits a content.

(** The read and the upserts of attachment [a] succeed in every world. *)
Definition attachment_goes_through (r : repo) (a : attachment) : Prop :=
  (forall w, exists content, fst (svc_open_read svc (att_path a) w) = Ok content)
  /\ (forall content w,
        fst (svc_create_or_update_file svc r (att_name a) content
               ("Add attachment " +:+ att_name a) w) = Ok tt)
  /\ (forall content w,
        fst (svc_create_or_update_binary_file svc r (att_name a) content
               ("Add binary " +:+ att_name a) w) = Ok tt)
  /\ (forall content w,
        fst (svc_create_or_update_file svc r
               ("attachments/" +:+ att_name a +:+ ".b64") content
               ("Backup " +:+ att_name a +:+ ".b64") w) = Ok tt).

(** The upserts of Step 4 succeed in every world. *)
Definition common_steps_go_through (l : locals) : Prop :=
  (forall fname content w,
     (fname, content) ∈ files l ->
     fst (svc_create_or_update_file svc (the_repo l) fname content
            ("Add/Update " +:+ fname) w) = Ok tt)
  /\ (forall w, exists text, fst (svc_generate_mit_license svc w) = Ok text)
  /\ (forall text w,
        fst (svc_create_or_update_file svc (the_repo l) "LICENSE" text
               "Add MIT license" w) = Ok tt).

(** The commits of Step 4 for the generated files. *)
Definition file_commits (l : locals) : list event :=
  map (fun '(fname, content) =>
         EvCommitText fname content ("Add/Update " +:+ fname)) (files l).

End OpenLedger.

(** A read that fails because the file cannot be opened: [open] raises
    [PermissionError] and leaves everything as it is. *)
Definition unreadable_read : M nat ledger :=
  fun st => (Raise (ServiceError ["PermissionError"; "OSError"]), st).

(** The locals of a Round-1 run whose generation names three attachments. *)
Definition three_locals : locals :=
  Locals (PyInt 1) (PyStr "demo") (Repo "https://github.com/octo/demo")
         demo_files [demo_notes; demo_logo; demo_data_csv].

(** * Properties *)

Section EmitsRules.

Context {W : Type}.
Implicit Types (P : event -> Prop) (st : state W).

Lemma emits_ret {A} P (a : A) : emits P (@ret W A a).
Proof. intros st. exists []. by rewrite app_nil_r. Qed.

Lemma emits_raise {A} P e : emits P (@raise W A e).
Proof. intros st. exists []. by rewrite app_nil_r. Qed.

Lemma emits_bind {A B} P (m : M W A) (k : A -> M W B) :
  emits P m -> (forall a, emits P (k a)) -> emits P (bind m k).
Proof.
  intros Hm Hk st. unfold bind.
  destruct (Hm st) as (evs & Ht & HP).
  destruct (m st) as [[a|e] st1]; simpl in *.
  - destruct (Hk a st1) as (evs' & Ht' & HP').
    exists (evs ++ evs'). rewrite Ht', Ht, <- app_assoc.
    split; [done | by apply Forall_app].
  - by exists evs.
Qed.

Lemma emits_try_except {A} P (m : M W A) (h : exn -> M W A) :
  emits P m -> (forall e, emits P (h e)) -> emits P (try_except m h).
Proof.
  intros Hm Hh st. unfold try_except.
  destruct (Hm st) as (evs & Ht & HP).
  destruct (m st) as [[a|e] st1]; simpl in *.
  - by exists evs.
  - destruct (Hh e st1) as (evs' & Ht' & HP').
    exists (evs ++ evs'). rewrite Ht', Ht, <- app_assoc.
    split; [done | by apply Forall_app].
Qed.

Lemma emits_call {A} P ev (f : W -> result A * W) :
  P ev -> emits P (call ev f).
Proof.
  intros HP st. unfold call. destruct (f (world st)) as [r w].
  exists [ev]. split; [done | by constructor].
Qed.

Lemma emits_getitem P (d : dict) k : emits P (@getitem W d k).
Proof.
  unfold getitem. destruct (d !! k); [apply emits_ret | apply emits_raise].
Qed.

Lemma emits_global P name : emits P (@global W name).
Proof.
  unfold global. case_bool_decide; [apply emits_ret | apply emits_raise].
Qed.

Lemma emits_for_each {A} P (xs : list A) (body : A -> M W unit) :
  (forall x, x ∈ xs -> emits P (body x)) -> emits P (for_each xs body).
Proof.
  induction xs as [|x xs IH]; intros Hb; simpl.
  - apply emits_ret.
  - apply emits_bind.
    + apply Hb. by left.
    + intros _. apply IH. intros y Hy. apply Hb. by right.
Qed.

End EmitsRules.

Lemma advance_nil {W} (st : state W) : advance st (world st) [] = st.
Proof. destruct st. unfold advance. simpl. by rewrite app_nil_r. Qed.

Lemma advance_advance {W} (st : state W) w1 w2 evs1 evs2 :
  advance (advance st w1 evs1) w2 evs2 = advance st w2 (evs1 ++ evs2).
Proof. unfold advance. simpl. by rewrite app_assoc. Qed.

Lemma call_run {W A} ev (f : W -> result A * W) (st : state W) :
  call ev f st = (fst (f (world st)), advance st (snd (f (world st))) [ev]).
Proof. unfold call. by destruct (f (world st)). Qed.

Lemma py_eq_env_spec v o : py_eq_env v o = true <-> v = of_env o.
Proof.
  destruct v, o; simpl; try (split; [discriminate | discriminate || done]).
  - done.
  - rewrite String.eqb_eq. split; congruence.
Qed.

Lemma getitem_Some {W} (d : dict) k v (st : state W) :
  d !! k = Some v -> getitem d k st = (Ok v, st).
Proof. intros H. unfold getitem. by rewrite H. Qed.

Section Ledger.

Context {W : Type} (svc : Services W) (cfg : Config).
Implicit Types (st : state W) (data : dict).

(** A ledger read never raises: it yields the stored table, or the empty
    table when there is no file or the file does not parse.  The read
    leaves the store as it is. *)
Lemma load_processed_run st :
  load_processed st =
    (Ok (table_of (ledger_file st)), advance st (world st) [EvLoadLedger]).
Proof.
  unfold load_processed, bind, path_exists, try_except_cls, json_load, advance.
  destruct st as [w f tr bg]; simpl. by destruct f.
Qed.

Lemma save_processed_run (t : ledger) st :
  save_processed t st =
    (Ok tt, State (world st) (Stored t) (trace st ++ [EvSaveLedger t])
                  (background_tasks st)).
Proof. done. Qed.

Lemma intake_key_run data e t r n st :
  data !! "email" = Some e -> data !! "task" = Some t ->
  data !! "round" = Some r -> data !! "nonce" = Some n ->
  intake_key data st = (Ok (spec_idempotency_key e t r n), st).
Proof.
  intros He Ht Hr Hn. unfold intake_key, bind.
  rewrite (getitem_Some _ _ _ _ He), (getitem_Some _ _ _ _ Ht),
    (getitem_Some _ _ _ _ Hr), (getitem_Some _ _ _ _ Hn).
  done.
Qed.

Lemma persist_key_run data e t n round st :
  data !! "email" = Some e -> data !! "task" = Some t ->
  data !! "nonce" = Some n ->
  persist_key data round st = (Ok (spec_idempotency_key e t round n), st).
Proof.
  intros He Ht Hn. unfold persist_key, bind.
  rewrite (getitem_Some _ _ _ _ He), (getitem_Some _ _ _ _ Ht),
    (getitem_Some _ _ _ _ Hn).
  done.
Qed.

End Ledger.

Section Report.

Context {W : Type} (svc : Services W) (cfg : Config).
Implicit Types (st : state W) (data : dict) (l : locals).

Lemma pages_handling_run l st :
  pages_handling svc cfg l st =
    (Ok (pages_outcome svc cfg l (world st)),
     advance st (pages_world svc l (world st)) (pages_events l)).
Proof.
  unfold pages_handling, pages_outcome, pages_world, pages_events,
    try_except, bind, enable_pages.
  destruct (py_eq_int (round_num l) 1).
  - rewrite call_run.
    destruct (svc_enable_pages svc (task_id l) (world st)) as [[[|]|e] w];
      done.
  - unfold ret. by rewrite advance_nil.
Qed.

Lemma resolve_commit_sha_run l st :
  resolve_commit_sha svc l st =
    (Ok (sha_outcome svc l (world st)),
     advance st (snd (svc_latest_commit_sha svc (the_repo l) (world st)))
       [EvGetCommits]).
Proof.
  unfold resolve_commit_sha, sha_outcome, try_except, bind, latest_commit_sha.
  rewrite call_run.
  by destruct (svc_latest_commit_sha svc (the_repo l) (world st)) as [[|] w].
Qed.

Lemma notify_step_run data body st :
  try_except
    (url <- getitem data "evaluation_url";;
     notify_evaluation_server svc url body)
    (fun _ => ret tt) st =
  (Ok tt, advance st (notify_world svc data body (world st))
            (notify_events data body)).
Proof.
  unfold try_except, bind, getitem, notify_events, notify_world,
    notify_evaluation_server.
  destruct (data !! "evaluation_url") as [url|]; simpl.
  - unfold ret. rewrite call_run.
    by destruct (svc_notify_evaluation_server svc url body (world st))
      as [[[]|] w].
  - unfold raise, ret. by rewrite advance_nil.
Qed.

(** Steps 5-8 always complete for a request that carries [email], [task]
    and [nonce]: one optional hosting call, one commit lookup, one optional
    notification, one ledger read and one ledger write. *)
Lemma report_run data l st e t n :
  data !! "email" = Some e -> data !! "task" = Some t ->
  data !! "nonce" = Some n ->
  let body := payload_of svc cfg data l (world st) e t n in
  let table :=
    <[spec_idempotency_key e t (round_num l) n := body]>
      (table_of (ledger_file st)) in
  exists w',
    report svc cfg data l st =
      (Ok tt,
       State w' (Stored table)
         (trace st ++ pages_events l ++ [EvGetCommits]
            ++ notify_events data body ++ [EvLoadLedger; EvSaveLedger table])
         (background_tasks st)).
Proof.
  intros He Ht Hn body table. unfold report.
  unfold bind at 1. rewrite pages_handling_run.
  unfold bind at 1. rewrite resolve_commit_sha_run.
  unfold bind at 1. rewrite (getitem_Some _ _ _ _ He).
  unfold bind at 1. rewrite (getitem_Some _ _ _ _ Ht).
  unfold bind at 1. rewrite (getitem_Some _ _ _ _ Hn).
  unfold bind at 1. rewrite notify_step_run.
  unfold bind at 1. rewrite load_processed_run.
  unfold bind at 1. rewrite (persist_key_run _ _ _ _ _ _ He Ht Hn).
  rewrite save_processed_run. rewrite !advance_advance. simpl.
  eexists. f_equal. subst body table. unfold payload_of, advance; simpl.
  f_equal. by simplify_list_eq.
Qed.

End Report.

Section Intake.

Context {W : Type} (svc : Services W) (cfg : Config).
Implicit Types (st : state W) (data : dict).

Lemma receive_request_hit data st e t r n stored :
  dict_get data "secret" PyNone = of_env (USER_SECRET cfg) ->
  data !! "email" = Some e -> data !! "task" = Some t ->
  data !! "round" = Some r -> data !! "nonce" = Some n ->
  table_of (ledger_file st) !! spec_idempotency_key e t r n = Some stored ->
  let url := dict_get data "evaluation_url" PyNone in
  receive_request svc cfg data st =
    (Ok [("status", "ok"); ("note", "duplicate handled & re-notified")],
     advance st (snd (svc_notify_evaluation_server svc url stored (world st)))
       [EvLoadLedger; EvNotify url stored]).
Proof.
  intros Hs He Ht Hr Hn Hhit url. unfold receive_request.
  apply py_eq_env_spec in Hs. rewrite Hs. simpl.
  unfold bind at 1. rewrite load_processed_run.
  unfold bind at 1. rewrite (intake_key_run _ _ _ _ _ _ He Ht Hr Hn).
  rewrite Hhit. unfold bind, try_except, notify_evaluation_server.
  rewrite call_run. fold url. simpl.
  destruct (svc_notify_evaluation_server svc url stored (world st))
    as [[[]|err] w]; simpl; unfold ret; by rewrite advance_advance.
Qed.

Lemma receive_request_miss data st e t r n :
  dict_get data "secret" PyNone = of_env (USER_SECRET cfg) ->
  data !! "email" = Some e -> data !! "task" = Some t ->
  data !! "round" = Some r -> data !! "nonce" = Some n ->
  table_of (ledger_file st) !! spec_idempotency_key e t r n = None ->
  receive_request svc cfg data st =
    (Ok [("status", "accepted");
         ("note", "processing round " +:+ py_str r +:+ " started")],
     State (world st) (ledger_file st) (trace st ++ [EvLoadLedger])
           (background_tasks st ++ [data])).
Proof.
  intros Hs He Ht Hr Hn Hmiss. unfold receive_request.
  apply py_eq_env_spec in Hs. rewrite Hs. simpl.
  unfold bind at 1. rewrite load_processed_run.
  unfold bind at 1. rewrite (intake_key_run _ _ _ _ _ _ He Ht Hr Hn).
  rewrite Hmiss. unfold bind, add_task. simpl.
  by rewrite (getitem_Some _ _ _ _ Hr).
Qed.

Lemma commits_app tr1 tr2 : commits (tr1 ++ tr2) = commits tr1 ++ commits tr2.
Proof. apply List.filter_app. Qed.

Lemma notifications_app tr1 tr2 :
  notifications (tr1 ++ tr2) = notifications tr1 ++ notifications tr2.
Proof. apply List.filter_app. Qed.

(** Once the key is in the ledger, any number of further submissions only
    re-notify: no repository write, nothing scheduled, ledger untouched. *)
Lemma resubmit_hit data e t r n stored k st :
  dict_get data "secret" PyNone = of_env (USER_SECRET cfg) ->
  data !! "email" = Some e -> data !! "task" = Some t ->
  data !! "round" = Some r -> data !! "nonce" = Some n ->
  table_of (ledger_file st) !! spec_idempotency_key e t r n = Some stored ->
  let st' := snd (resubmit svc cfg data k st) in
  fst (resubmit svc cfg data k st) = Ok tt
  /\ commits (trace st') = commits (trace st)
  /\ notifications (trace st') =
       notifications (trace st)
       ++ replicate k (EvNotify (dict_get data "evaluation_url" PyNone) stored)
  /\ background_tasks st' = background_tasks st
  /\ ledger_file st' = ledger_file st.
Proof.
  intros Hs He Ht Hr Hn. revert st.
  induction k as [|k IH]; intros st Hhit; simpl.
  - by rewrite app_nil_r.
  - unfold bind.
    rewrite (receive_request_hit _ _ _ _ _ _ _ Hs He Ht Hr Hn Hhit).
    set (st1 := advance st _ _).
    destruct (IH st1 Hhit) as (Hok & Hc & Hnt & Hbg & Hl).
    repeat split; [done | | | done | done].
    + rewrite Hc. unfold st1, advance; simpl.
      rewrite commits_app. simpl. by rewrite app_nil_r.
    + rewrite Hnt. unfold st1, advance; simpl.
      rewrite notifications_app. simpl. by rewrite <- app_assoc.
Qed.

End Intake.

Ltac emits_step :=
  first
    [ apply emits_ret | apply emits_raise | apply emits_getitem
    | apply emits_global
    | apply emits_call; simpl; auto
    | apply emits_bind; [|intros ?]
    | apply emits_try_except; [|intros ?] ].

Section Phases.

Context {W : Type} (svc : Services W) (cfg : Config).
Implicit Types (st : state W) (data : dict) (l : locals) (P : event -> Prop).

Lemma emits_try_except_cls {A} P (m : M W A) (c : M W string) h :
  emits P m -> emits P c -> (forall e, emits P (h e)) ->
  emits P (try_except_cls m c h).
Proof.
  intros Hm Hc Hh st. unfold try_except_cls.
  destruct (Hm st) as (evs & Ht & HP).
  destruct (m st) as [[a|e] st1]; simpl in *; [by exists evs|].
  destruct (Hc st1) as (evs1 & Ht1 & HP1).
  destruct (c st1) as [[cls|e'] st2]; simpl in *.
  - destruct (isinstance e cls).
    + destruct (Hh e st2) as (evs2 & Ht2 & HP2).
      exists (evs ++ evs1 ++ evs2). rewrite Ht2, Ht1, Ht, <- !app_assoc.
      split; [done | by rewrite !Forall_app].
    + exists (evs ++ evs1). simpl. rewrite Ht1, Ht, <- app_assoc.
      split; [done | by apply Forall_app].
  - exists (evs ++ evs1). rewrite Ht1, Ht, <- app_assoc.
    split; [done | by apply Forall_app].
Qed.

Lemma emits_load_processed P : P EvLoadLedger -> emits P (@load_processed W).
Proof.
  intros HP st. rewrite load_processed_run. exists [EvLoadLedger].
  split; [done | by constructor].
Qed.

Lemma emits_save_processed P t :
  P (EvSaveLedger t) -> emits P (@save_processed W t).
Proof. intros HP st. exists [EvSaveLedger t]. split; [done | by constructor]. Qed.

Lemma prepare_emits data : emits is_setup (prepare svc data).
Proof.
  unfold prepare, decode_attachments, create_repo, get_contents,
    generate_app_code.
  repeat emits_step.
  destruct (py_eq_int _ 2); repeat emits_step.
Qed.

Lemma report_emits data l : emits is_report (report svc cfg data l).
Proof.
  unfold report, pages_handling, resolve_commit_sha, enable_pages,
    latest_commit_sha, notify_evaluation_server, persist_key.
  repeat first
    [ by apply emits_load_processed | by apply emits_save_processed
    | emits_step ].
  destruct (py_eq_int _ 1); repeat emits_step.
Qed.

(** The handler at line 67 names a class that the module never binds, so
    an exception leaving the generation call is replaced by [NameError]
    and the fallback at lines 69-70 is never taken. *)
Lemma generation_guard {A} (body : M W A) h st e st' :
  body st = (Raise e, st') ->
  try_except_cls body (global "OpenAIError") h st =
    (Raise (NameError "OpenAIError"), st').
Proof. intros Hb. unfold try_except_cls. by rewrite Hb. Qed.

(** Whenever preparation completes, the generation call itself has
    answered: the files and attachments are the ones it returned, never
    the fallback of lines 69-70. *)
Lemma prepare_never_falls_back data st l st1 :
  prepare svc data st = (Ok l, st1) ->
  exists brief attachments checks prev w g,
    fst (svc_generate_app_code svc brief attachments checks (round_num l)
           prev w) = Ok g
    /\ files l = default [] (gen_files g)
    /\ saved_info l = default [] (gen_attachments g).
Proof.
  unfold prepare, bind, getitem, decode_attachments, create_repo,
    get_contents, generate_app_code, try_except, try_except_cls, ret, raise.
  destruct (data !! "task") as [t|]; [|done].
  rewrite call_run.
  destruct (svc_decode_attachments _ _ _) as [[?|?] w1]; simpl; [|done].
  destruct (data !! "brief") as [b|]; [|done].
  rewrite call_run.
  destruct (svc_create_repo _ _ _ _) as [[r|?] w2]; simpl; [|done].
  destruct (py_eq_int _ 2).
  - rewrite call_run.
    destruct (svc_get_contents _ _ _ _) as [[?|?] w3]; simpl;
      rewrite call_run; simpl;
      destruct (svc_generate_app_code _ _ _ _ _ _ _) as [[g|?] w4] eqn:Hg;
      simpl; intros [= <- <-]; simpl;
      eexists _, _, _, _, _, g; by rewrite Hg.
  - rewrite call_run. simpl.
    destruct (svc_generate_app_code _ _ _ _ _ _ _) as [[g|?] w4] eqn:Hg;
      simpl; intros [= <- <-]; simpl;
      eexists _, _, _, _, _, g; by rewrite Hg.
Qed.

(** The parts of the state that preparation leaves alone, and the locals
    it computes from the request. *)
Lemma prepare_locals data st l st1 :
  prepare svc data st = (Ok l, st1) ->
  round_num l = dict_get data "round" (PyInt 1)
  /\ data !! "task" = Some (task_id l)
  /\ ledger_file st1 = ledger_file st
  /\ background_tasks st1 = background_tasks st.
Proof.
  unfold prepare, bind, getitem, decode_attachments, create_repo,
    get_contents, generate_app_code, try_except, try_except_cls, ret, raise.
  destruct (data !! "task") as [t|]; [|done].
  rewrite call_run.
  destruct (svc_decode_attachments _ _ _) as [[?|?] w1]; simpl; [|done].
  destruct (data !! "brief") as [b|]; [|done].
  rewrite call_run.
  destruct (svc_create_repo _ _ _ _) as [[r|?] w2]; simpl; [|done].
  destruct (py_eq_int _ 2).
  - rewrite call_run.
    destruct (svc_get_contents _ _ _ _) as [[?|?] w3]; simpl;
      rewrite call_run;
      destruct (svc_generate_app_code _ _ _ _ _ _ _) as [[g|?] w4]; simpl;
      intros [= <- <-]; done.
  - rewrite call_run.
    destruct (svc_generate_app_code _ _ _ _ _ _ _) as [[g|?] w4]; simpl;
      intros [= <- <-]; done.
Qed.

End Phases.

Section Publish.

Context {W : Type} (svc : Services W) (cfg : Config).
Implicit Types (st : state W) (data : dict) (l : locals) (r : repo).

Lemma for_each_app {A} (xs ys : list A) (body : A -> M W unit) st :
  for_each (xs ++ ys) body st = (for_each xs body ;;; for_each ys body) st.
Proof.
  revert st. induction xs as [|x xs IH]; intros st; simpl; [done|].
  unfold bind in *. destruct (body x st) as [[[]|e] st1]; [apply IH | done].
Qed.

(** The loop body of lines 79-91 never raises: whatever the read or the
    commits do, the [except Exception] at line 90 absorbs it.  The read of
    the attachment is always attempted. *)
Lemma commit_attachment_total r a st :
  exists w evs,
    commit_attachment svc r a st =
      (Ok tt, advance st w (EvOpen (att_path a) :: evs)).
Proof.
  unfold commit_attachment, try_except, bind, open_read,
    create_or_update_file, create_or_update_binary_file.
  rewrite call_run.
  destruct (svc_open_read svc (att_path a) (world st)) as [[b|e] w1]; simpl.
  - destruct (is_text a).
    + rewrite call_run. simpl.
      destruct (svc_create_or_update_file _ _ _ _ _ _) as [[[]|e] w2];
        simpl; unfold ret; rewrite advance_advance; by eexists _, _.
    + rewrite call_run. simpl.
      destruct (svc_create_or_update_binary_file _ _ _ _ _ _) as [[[]|e] w2];
        simpl.
      * rewrite call_run. simpl.
        destruct (svc_create_or_update_file _ _ _ _ _ _) as [[[]|e] w3];
          simpl; unfold ret; rewrite !advance_advance; by eexists _, _.
      * unfold ret. rewrite advance_advance. by eexists _, _.
  - unfold ret. by eexists _, [].
Qed.

(** A read failure costs exactly the one attempted read. *)
Lemma commit_attachment_unreadable r a st e :
  fst (svc_open_read svc (att_path a) (world st)) = Raise e ->
  commit_attachment svc r a st =
    (Ok tt, advance st (snd (svc_open_read svc (att_path a) (world st)))
              [EvOpen (att_path a)]).
Proof.
  intros Hr. unfold commit_attachment, try_except, bind, open_read.
  rewrite call_run, Hr. done.
Qed.

(** The attachment loop as a whole never raises and attempts every
    attachment of the batch. *)
Lemma attachment_loop_total r atts st :
  exists w evs,
    for_each atts (commit_attachment svc r) st = (Ok tt, advance st w evs)
    /\ forall a, a ∈ atts -> EvOpen (att_path a) ∈ evs.
Proof.
  revert st. induction atts as [|a atts IH]; intros st; simpl.
  - exists (world st), []. rewrite advance_nil. split; [done|].
    intros a Ha. by apply elem_of_nil in Ha.
  - unfold bind.
    destruct (commit_attachment_total r a st) as (w1 & evs1 & ->).
    destruct (IH (advance st w1 (EvOpen (att_path a) :: evs1)))
      as (w2 & evs2 & -> & Hin).
    exists w2, ((EvOpen (att_path a) :: evs1) ++ evs2).
    rewrite advance_advance. split; [done|].
    intros a' [->|Ha']%elem_of_cons.
    + apply elem_of_app. left. by left.
    + apply elem_of_app. right. by apply Hin.
Qed.

(** A binary attachment whose read and two commits succeed. *)
Lemma commit_attachment_binary r a st :
  upserts_succeed svc -> reads_succeed svc -> is_text a = false ->
  exists w content,
    commit_attachment svc r a st =
      (Ok tt,
       advance st w
         [EvOpen (att_path a);
          EvCommitBinary (att_name a) content ("Add binary " +:+ att_name a);
          EvCommitText ("attachments/" +:+ att_name a +:+ ".b64")
            (b64encode svc content) ("Backup " +:+ att_name a +:+ ".b64")]).
Proof.
  intros [Ht Hb] [Hr _] Hbin.
  unfold commit_attachment, try_except, bind, open_read,
    create_or_update_file, create_or_update_binary_file.
  rewrite Hbin, call_run.
  destruct (Hr (att_path a) (world st)) as [content Hc]. rewrite Hc.
  rewrite call_run, Hb. simpl. rewrite call_run, Ht. simpl.
  rewrite !advance_advance. by eexists _, _.
Qed.

(** A loop of text upserts over the generated files, all succeeding. *)
Lemma text_loop_run r (msg : string -> string) fs st :
  upserts_succeed svc ->
  exists w,
    for_each fs (fun '(fname, content) =>
      create_or_update_file svc r fname content (msg fname)) st =
    (Ok tt,
     advance st w
       (map (fun '(fname, content) => EvCommitText fname content (msg fname))
            fs)).
Proof.
  intros [Ht _]. revert st.
  induction fs as [|[f c] fs IH]; intros st; simpl.
  - exists (world st). by rewrite advance_nil.
  - unfold bind. unfold create_or_update_file at 1. rewrite call_run, Ht.
    cbv beta iota.
    destruct (IH (advance st
      (snd (svc_create_or_update_file svc r f c (msg f) (world st)))
      [EvCommitText f c (msg f)])) as [w ->].
    exists w. by rewrite advance_advance.
Qed.

Lemma common_steps_run l st :
  upserts_succeed svc -> reads_succeed svc ->
  exists w mit_text,
    common_steps svc l st =
      (Ok tt,
       advance st w
         (map (fun '(fname, content) =>
                 EvCommitText fname content ("Add/Update " +:+ fname))
              (files l)
          ++ [EvMitLicense;
              EvCommitText "LICENSE" mit_text "Add MIT license"])).
Proof.
  intros Hu [_ Hm]. unfold common_steps. unfold bind at 1.
  destruct (text_loop_run (the_repo l) (fun f => "Add/Update " +:+ f)
              (files l) st Hu) as [w1 ->].
  unfold bind, generate_mit_license, create_or_update_file.
  rewrite call_run. simpl.
  destruct (Hm w1) as [text Htext]. rewrite Htext.
  rewrite call_run. destruct Hu as [Ht _]. rewrite Ht. simpl.
  rewrite !advance_advance. by eexists _, _.
Qed.

(** In the revision branch nothing touches an attachment or the hosting
    service, whether or not the run completes. *)
Lemma revision_emits data l :
  py_eq_int (round_num l) 1 = false ->
  emits (is_revision l)
    (round_specific svc l ;;; common_steps svc l ;;; report svc cfg data l).
Proof.
  intros Hround.
  assert (Hloop : forall msg : string -> string,
    emits (is_revision l)
      (for_each (files l) (fun '(fname, content) =>
         create_or_update_file svc (the_repo l) fname content (msg fname)))).
  { intros msg. apply emits_for_each. intros [f c] Hin.
    apply emits_call. simpl. by left. }
  apply emits_bind; [|intros _; apply emits_bind; [|intros _]].
  - unfold round_specific. rewrite Hround.
    apply (Hloop (fun f => "Update " +:+ f +:+ " for round 2")).
  - unfold common_steps. apply emits_bind; [|intros _].
    + apply (Hloop (fun f => "Add/Update " +:+ f)).
    + unfold generate_mit_license, create_or_update_file.
      apply emits_bind; [by apply emits_call | intros text].
      apply emits_call. simpl. by right.
  - unfold report, pages_handling, resolve_commit_sha, enable_pages,
      latest_commit_sha, notify_evaluation_server, persist_key.
    rewrite Hround.
    repeat first
      [ by apply emits_load_processed | by apply emits_save_processed
      | emits_step ].
Qed.

End Publish.

Section KeysAndGate.

Context {W : Type} (svc : Services W) (cfg : Config).
Implicit Types (st : state W) (data : dict) (l : locals).

Lemma commits_none (P : event -> Prop) evs :
  (forall e, P e -> is_commit e = false) -> Forall P evs -> commits evs = [].
Proof.
  intros HP. induction 1 as [|e evs He _ IH]; [done|].
  unfold commits in *. simpl. by rewrite (HP e He).
Qed.

Lemma setup_not_commit e : is_setup e -> is_commit e = false.
Proof. by destruct e. Qed.

Lemma report_not_commit e : is_report e -> is_commit e = false.
Proof. by destruct e. Qed.

(** The pipeline after a completed preparation and publication. *)
Lemma process_request_reaches data st l st1 st3 :
  prepare svc data st = (Ok l, st1) ->
  (round_specific svc l ;;; common_steps svc l) st1 = (Ok tt, st3) ->
  process_request svc cfg data st = report svc cfg data l st3.
Proof.
  intros Hp Hpub. unfold process_request. unfold bind at 1. rewrite Hp.
  unfold bind in *. destruct (round_specific svc l st1) as [[[]|e] st2];
    [|done].
  by rewrite Hpub.
Qed.

(** C7. For a request carrying [email], [task], [round] and [nonce], the
    key looked up at intake (line 159) and the key written at persistence
    time (line 138, formatted with the [round_num] of line 37) are the same
    string [email::task::round<R>::nonce<N>]. *)
Theorem C7_key_agreement data e t r n (sa sb : state W) :
  data !! "email" = Some e -> data !! "task" = Some t ->
  data !! "round" = Some r -> data !! "nonce" = Some n ->
  intake_key data sa = (Ok (spec_idempotency_key e t r n), sa)
  /\ persist_key data (dict_get data "round" (PyInt 1)) sb =
       (Ok (spec_idempotency_key e t r n), sb)
  /\ (forall st l st1,
        prepare svc data st = (Ok l, st1) ->
        round_num l = dict_get data "round" (PyInt 1)).
Proof.
  intros He Ht Hr Hn. split; [|split].
  - by apply intake_key_run.
  - unfold dict_get. rewrite Hr. by apply persist_key_run.
  - intros st l st1 Hp. by destruct (prepare_locals _ _ _ _ _ Hp) as (-> & _).
Qed.

(** C4. A request whose [secret] differs from the configured one is
    answered with the error body, and the state is returned as it was: no
    ledger access, nothing scheduled, no collaborator called. *)
Theorem C4_invalid_secret_rejected data st :
  dict_get data "secret" PyNone <> of_env (USER_SECRET cfg) ->
  receive_request svc cfg data st = (Ok [("error", "Invalid secret")], st).
Proof.
  intros Hne. unfold receive_request.
  destruct (py_eq_env _ _) eqn:Heq; [|done].
  by apply py_eq_env_spec in Heq.
Qed.

(** C8. In Round 1 hosting activation is invoked once and [pages_url] is
    the public URL exactly when activation answered true; in Round 2
    activation is not invoked and [pages_url] is the public URL. *)
Theorem C8_pages_by_round l st :
  (round_num l = PyInt 1 ->
     pages_handling svc cfg l st =
       (Ok match fst (svc_enable_pages svc (task_id l) (world st)) with
           | Ok true => Some (public_url cfg (task_id l))
           | _ => None
           end,
        advance st (snd (svc_enable_pages svc (task_id l) (world st)))
          [EvEnablePages (task_id l)]))
  /\ (round_num l = PyInt 2 ->
        pages_handling svc cfg l st =
          (Ok (Some (public_url cfg (task_id l))), st)).
Proof.
  split; intros Hr; rewrite pages_handling_run;
    unfold pages_outcome, pages_world, pages_events; rewrite Hr; simpl.
  - done.
  - by rewrite advance_nil.
Qed.

End KeysAndGate.

Section CommitsAndHosting.

Context {W : Type} (svc : Services W) (cfg : Config).
Implicit Types (st : state W) (data : dict) (l : locals).

(** The repository writes of a whole run, given what publication wrote:
    preparation and Steps 5-8 write nothing to the repository. *)
Lemma process_request_commits data st l st1 st3 :
  prepare svc data st = (Ok l, st1) ->
  (round_specific svc l ;;; common_steps svc l) st1 = (Ok tt, st3) ->
  forall evs, trace st3 = trace st1 ++ evs ->
  commits (trace (snd (process_request svc cfg data st))) =
    commits (trace st) ++ commits evs.
Proof.
  intros Hp Hpub evs Hevs.
  rewrite (process_request_reaches svc cfg _ _ _ _ _ Hp Hpub).
  destruct (report_emits svc cfg data l st3) as (evr & -> & Hr).
  destruct (prepare_emits svc data st) as (evp & Hpt & Hs).
  rewrite Hp in Hpt. simpl in Hpt. rewrite Hevs, Hpt, !commits_app.
  rewrite (commits_none _ _ setup_not_commit Hs).
  rewrite (commits_none _ _ report_not_commit Hr).
  by rewrite !app_nil_r.
Qed.

(** C1, as the code has it. With every upsert and read succeeding and a
    generation result of two files: a Round-1 run with one binary
    attachment writes the attachment natively, its base64 backup under
    [attachments/], the two files and the license; a Round-2 run writes
    each of the two files twice (once as "Update .. for round 2", once as
    "Add/Update ..") and the license, and nothing for attachments. *)
Theorem C1_commits_by_round data st l st1 f1 c1 f2 c2 :
  upserts_succeed svc -> reads_succeed svc ->
  prepare svc data st = (Ok l, st1) ->
  files l = [(f1, c1); (f2, c2)] ->
  let tr := trace (snd (process_request svc cfg data st)) in
  (round_num l = PyInt 1 -> forall a,
     saved_info l = [a] -> is_text a = false ->
     exists content mit_text,
       commits tr =
         commits (trace st) ++
         [EvCommitBinary (att_name a) content ("Add binary " +:+ att_name a);
          EvCommitText ("attachments/" +:+ att_name a +:+ ".b64")
            (b64encode svc content) ("Backup " +:+ att_name a +:+ ".b64");
          EvCommitText f1 c1 ("Add/Update " +:+ f1);
          EvCommitText f2 c2 ("Add/Update " +:+ f2);
          EvCommitText "LICENSE" mit_text "Add MIT license"])
  /\ (round_num l = PyInt 2 ->
      exists mit_text,
        commits tr =
          commits (trace st) ++
          [EvCommitText f1 c1 ("Update " +:+ f1 +:+ " for round 2");
           EvCommitText f2 c2 ("Update " +:+ f2 +:+ " for round 2");
           EvCommitText f1 c1 ("Add/Update " +:+ f1);
           EvCommitText f2 c2 ("Add/Update " +:+ f2);
           EvCommitText "LICENSE" mit_text "Add MIT license"]).
Proof.
  intros Hu Hr Hp Hfiles tr. split.
  - intros Hround a Hatt Hbin.
    destruct (commit_attachment_binary svc (the_repo l) a st1 Hu Hr Hbin)
      as (w1 & content & Hca).
    destruct (common_steps_run svc l (advance st1 w1
      [EvOpen (att_path a);
       EvCommitBinary (att_name a) content ("Add binary " +:+ att_name a);
       EvCommitText ("attachments/" +:+ att_name a +:+ ".b64")
         (b64encode svc content) ("Backup " +:+ att_name a +:+ ".b64")])
      Hu Hr) as (w2 & mit_text & Hcs).
    exists content, mit_text. subst tr.
    erewrite process_request_commits; [| exact Hp | | ].
    2:{ unfold bind, round_specific. rewrite Hround, Hatt. simpl.
        unfold bind. rewrite Hca. simpl. unfold ret. exact Hcs. }
    2:{ rewrite advance_advance. simpl. reflexivity. }
    rewrite Hfiles. done.
  - intros Hround.
    destruct (text_loop_run svc (the_repo l)
      (fun f => "Update " +:+ f +:+ " for round 2") (files l) st1 Hu)
      as (w1 & Hloop).
    destruct (common_steps_run svc l (advance st1 w1
      (map (fun '(fname, content) =>
              EvCommitText fname content
                ("Update " +:+ fname +:+ " for round 2")) (files l)))
      Hu Hr) as (w2 & mit_text & Hcs).
    exists mit_text. subst tr.
    erewrite process_request_commits; [| exact Hp | | ].
    2:{ unfold bind, round_specific. rewrite Hround. simpl.
        rewrite Hloop. exact Hcs. }
    2:{ rewrite advance_advance. simpl. reflexivity. }
    rewrite Hfiles. done.
Qed.

(** C6. In a Round-1 run that has reached Step 5, a hosting activation
    that answers false or raises leaves [pages_url] null in the payload;
    the commit lookup is still made, the payload is still notified (when
    the request names an evaluation URL) and the ledger entry is still
    written: the run completes. *)
Theorem C6_hosting_failure_degrades data st l st1 st3 e n :
  prepare svc data st = (Ok l, st1) ->
  (round_specific svc l ;;; common_steps svc l) st1 = (Ok tt, st3) ->
  data !! "email" = Some e -> data !! "nonce" = Some n ->
  py_eq_int (round_num l) 1 = true ->
  fst (svc_enable_pages svc (task_id l) (world st3)) <> Ok true ->
  exists w' body table,
    process_request svc cfg data st =
      (Ok tt,
       State w' (Stored table)
         (trace st3 ++ [EvEnablePages (task_id l); EvGetCommits]
            ++ notify_events data body ++ [EvLoadLedger; EvSaveLedger table])
         (background_tasks st3))
    /\ p_pages_url body = None
    /\ p_commit_sha body =
         sha_outcome svc l (snd (svc_enable_pages svc (task_id l) (world st3)))
    /\ table !! spec_idempotency_key e (task_id l) (round_num l) n = Some body.
Proof.
  intros Hp Hpub He Hn Hround Hfail.
  destruct (prepare_locals _ _ _ _ _ Hp) as (_ & Ht & _).
  rewrite (process_request_reaches svc cfg _ _ _ _ _ Hp Hpub).
  destruct (report_run svc cfg data l st3 e (task_id l) n He Ht Hn)
    as (w' & Hrun).
  eexists w', _, _. split; [|split; [|split]].
  - rewrite Hrun. unfold pages_events. rewrite Hround. reflexivity.
  - simpl. unfold pages_outcome. rewrite Hround.
    destruct (fst (svc_enable_pages svc (task_id l) (world st3)))
      as [[|]|]; done.
  - simpl. unfold pages_world. by rewrite Hround.
  - apply lookup_insert_eq.
Qed.

End CommitsAndHosting.

Section DuplicatesAndRounds.

Context {W : Type} (svc : Services W) (cfg : Config).
Implicit Types (st : state W) (data : dict) (l : locals).

(** C3, as the code has it. For a request that passes the secret check
    and whose idempotency key already has a ledger entry, the handler
    makes one notification call with exactly the stored payload, answers
    "duplicate handled & re-notified", schedules nothing and leaves the
    ledger as it is; however often the request is submitted again, no
    repository write is made. *)
Theorem C3_duplicate_redelivered data st e t r n stored k :
  dict_get data "secret" PyNone = of_env (USER_SECRET cfg) ->
  data !! "email" = Some e -> data !! "task" = Some t ->
  data !! "round" = Some r -> data !! "nonce" = Some n ->
  table_of (ledger_file st) !! spec_idempotency_key e t r n = Some stored ->
  let url := dict_get data "evaluation_url" PyNone in
  receive_request svc cfg data st =
    (Ok [("status", "ok"); ("note", "duplicate handled & re-notified")],
     advance st (snd (svc_notify_evaluation_server svc url stored (world st)))
       [EvLoadLedger; EvNotify url stored])
  /\ commits (trace (snd (resubmit svc cfg data k st))) = commits (trace st)
  /\ notifications (trace (snd (resubmit svc cfg data k st))) =
       notifications (trace st) ++ replicate k (EvNotify url stored)
  /\ background_tasks (snd (resubmit svc cfg data k st)) = background_tasks st
  /\ ledger_file (snd (resubmit svc cfg data k st)) = ledger_file st.
Proof.
  intros Hs He Ht Hr Hn Hhit url. split.
  - by apply (receive_request_hit svc cfg data st e t r n).
  - destruct (resubmit_hit svc cfg data e t r n stored k st Hs He Ht Hr Hn Hhit)
      as (_ & Hc & Hnt & Hbg & Hl).
    done.
Qed.

(** C10, as the code has it. For a request carrying [email], [round] and
    [nonce] whose round value does not compare equal to 1 (0, 3, a string,
    null; not JSON true, which Python counts equal to 1), the pipeline
    takes the revision branch: after preparation it opens and commits no
    attachment and never calls hosting activation, and when publication
    completes the payload has the synthesized public URL, carries the
    round value as it came and is stored under the key built from it. *)
Theorem C10_other_rounds_revise data st l st1 e r n :
  data !! "email" = Some e -> data !! "round" = Some r ->
  data !! "nonce" = Some n ->
  py_eq_int r 1 = false ->
  prepare svc data st = (Ok l, st1) ->
  round_num l = r
  /\ (exists evs,
        trace (snd (process_request svc cfg data st)) = trace st1 ++ evs
        /\ Forall (is_revision l) evs)
  /\ (forall st3,
        (round_specific svc l ;;; common_steps svc l) st1 = (Ok tt, st3) ->
        exists w' body table,
          process_request svc cfg data st =
            (Ok tt,
             State w' (Stored table)
               (trace st3 ++ [EvGetCommits] ++ notify_events data body
                  ++ [EvLoadLedger; EvSaveLedger table])
               (background_tasks st3))
          /\ p_pages_url body = Some (public_url cfg (task_id l))
          /\ p_round body = r
          /\ table !! (py_str e +:+ "::" +:+ py_str (task_id l) +:+ "::round"
                       +:+ py_str r +:+ "::nonce" +:+ py_str n) = Some body).
Proof.
  intros He Hr Hn Hne Hp.
  destruct (prepare_locals _ _ _ _ _ Hp) as (Hround & Ht & _).
  assert (Hrl : round_num l = r).
  { rewrite Hround. unfold dict_get. by rewrite Hr. }
  split; [done | split].
  - assert (Hrev := revision_emits svc cfg data l).
    rewrite Hrl in Hrev. specialize (Hrev Hne st1).
    unfold process_request. unfold bind at 1. rewrite Hp. exact Hrev.
  - intros st3 Hpub.
    rewrite (process_request_reaches svc cfg _ _ _ _ _ Hp Hpub).
    destruct (report_run svc cfg data l st3 e (task_id l) n He Ht Hn)
      as (w' & Hrun).
    eexists w', _, _. split; [|split; [|split]].
    + rewrite Hrun. unfold pages_events. rewrite Hrl, Hne. reflexivity.
    + simpl. unfold pages_outcome. by rewrite Hrl, Hne.
    + done.
    + apply lookup_insert_eq.
Qed.

End DuplicatesAndRounds.

(** ** The properties on concrete runs *)

Lemma demo_upserts_succeed sc : upserts_succeed (demo_services sc).
Proof. split; intros; reflexivity. Defined.

Lemma demo_reads_succeed : reads_succeed (demo_services all_well).
Proof. split; intros; eexists; reflexivity. Defined.

(** C1 as stated fails for Round 2: with two generated files the run
    makes four generated-file commits, not two. *)
Lemma C1_round2_counterexample :
  let run :=
    process_request (demo_services all_well) demo_config
      (demo_request (PyInt 2)) idle in
  fst run = Ok tt
  /\ length demo_files = 2
  /\ length (commits_to (map fst demo_files) (trace (snd run))) = 4
  /\ length (commits_to (map fst demo_files) (trace (snd run))) <> 2.
Proof. vm_compute. repeat split; congruence. Qed.

(** C1 on the two demo runs, where every call succeeds. *)
Lemma C1_commits_by_round_witness :
  let svc := demo_services all_well in
  let run1 := process_request svc demo_config (demo_request (PyInt 1)) idle in
  let run2 := process_request svc demo_config (demo_request (PyInt 2)) idle in
  (exists content mit_text,
     commits (trace (snd run1)) =
       [EvCommitBinary "logo.png" content "Add binary logo.png";
        EvCommitText "attachments/logo.png.b64" (b64encode svc content)
          "Backup logo.png.b64";
        EvCommitText "index.html" "<html></html>" "Add/Update index.html";
        EvCommitText "README.md" "# demo" "Add/Update README.md";
        EvCommitText "LICENSE" mit_text "Add MIT license"])
  /\ (exists mit_text,
        commits (trace (snd run2)) =
          [EvCommitText "index.html" "<html></html>"
             "Update index.html for round 2";
           EvCommitText "README.md" "# demo" "Update README.md for round 2";
           EvCommitText "index.html" "<html></html>" "Add/Update index.html";
           EvCommitText "README.md" "# demo" "Add/Update README.md";
           EvCommitText "LICENSE" mit_text "Add MIT license"]).
Proof.
  intros svc run1 run2. split.
  - refine (proj1 (C1_commits_by_round svc demo_config
              (demo_request (PyInt 1)) idle (demo_locals (PyInt 1))
              (prepared all_well (PyInt 1))
              "index.html" "<html></html>" "README.md" "# demo"
              (demo_upserts_succeed all_well) demo_reads_succeed _ _)
            _ demo_logo _ _); vm_compute; reflexivity.
  - refine (proj2 (C1_commits_by_round svc demo_config
              (demo_request (PyInt 2)) idle (demo_locals (PyInt 2))
              (prepared all_well (PyInt 2))
              "index.html" "<html></html>" "README.md" "# demo"
              (demo_upserts_succeed all_well) demo_reads_succeed _ _)
            _); vm_compute; reflexivity.
Defined.

(** C2. A generation call that raises [OpenAIError] does not lead to the
    fallback page: the run stops with [NameError], before any commit, any
    notification and any ledger write. *)
Theorem C2_generation_failure_aborts :
  let run :=
    process_request (demo_services generation_down) demo_config
      (demo_request (PyInt 1)) idle in
  fst run = Raise (NameError "OpenAIError")
  /\ commits (trace (snd run)) = []
  /\ notifications (trace (snd run)) = []
  /\ ledger_file (snd run) = NoFile.
Proof. vm_compute. repeat split. Qed.

(** C3 on the demo request submitted again after it has been served,
    once and then three more times. *)
Lemma C3_duplicate_redelivered_witness :
  let svc := demo_services all_well in
  let data := demo_request (PyInt 1) in
  receive_request svc demo_config data served =
    (Ok [("status", "ok"); ("note", "duplicate handled & re-notified")],
     advance served
       (snd (svc_notify_evaluation_server svc (PyStr "https://eval/")
               demo_payload (world served)))
       [EvLoadLedger; EvNotify (PyStr "https://eval/") demo_payload])
  /\ commits (trace (snd (resubmit svc demo_config data 3 served))) =
       commits (trace served)
  /\ notifications (trace (snd (resubmit svc demo_config data 3 served))) =
       notifications (trace served)
       ++ replicate 3 (EvNotify (PyStr "https://eval/") demo_payload)
  /\ background_tasks (snd (resubmit svc demo_config data 3 served)) =
       background_tasks served
  /\ ledger_file (snd (resubmit svc demo_config data 3 served)) =
       ledger_file served.
Proof.
  intros svc data.
  apply (C3_duplicate_redelivered svc demo_config data served
           (PyStr "a@b.c") (PyStr "demo") (PyInt 1) (PyStr "n1")
           demo_payload 3); vm_compute; reflexivity.
Defined.

(** C4 on the demo request with a guessed secret. *)
Lemma C4_invalid_secret_rejected_witness :
  dict_get (wrong_secret (demo_request (PyInt 1))) "secret" PyNone
    <> of_env (USER_SECRET demo_config)
  /\ receive_request (demo_services all_well) demo_config
       (wrong_secret (demo_request (PyInt 1))) idle =
     (Ok [("error", "Invalid secret")], idle).
Proof.
  assert (H : dict_get (wrong_secret (demo_request (PyInt 1))) "secret" PyNone
              <> of_env (USER_SECRET demo_config))
    by (vm_compute; congruence).
  split; [exact H |].
  exact (C4_invalid_secret_rejected (demo_services all_well) demo_config
           (wrong_secret (demo_request (PyInt 1))) idle H).
Defined.

(** C5 as stated fails: on a store that does not parse the read returns
    the empty table instead of raising, and a pipeline run that reaches
    persistence overwrites the store. *)
Lemma C5_corrupt_read_counterexample :
  let run :=
    process_request (demo_services all_well) demo_config
      (demo_request (PyInt 1)) corrupted in
  ledger_file corrupted = Corrupt "{oops"
  /\ fst (load_processed corrupted) = Ok ∅
  /\ ~ (exists e, fst (load_processed corrupted) = Raise e)
  /\ fst run = Ok tt
  /\ ledger_file (snd run) <> Corrupt "{oops".
Proof.
  vm_compute. repeat split; try congruence. intros [e He]. congruence.
Qed.

(** C6 on a Round-1 run whose hosting service raises. *)
Lemma C6_hosting_failure_degrades_witness :
  let svc := demo_services pages_down in
  let data := demo_request (PyInt 1) in
  let l := demo_locals (PyInt 1) in
  let st3 := published pages_down l (PyInt 1) in
  exists w' body table,
    process_request svc demo_config data idle =
      (Ok tt,
       State w' (Stored table)
         (trace st3 ++ [EvEnablePages (task_id l); EvGetCommits]
            ++ notify_events data body ++ [EvLoadLedger; EvSaveLedger table])
         (background_tasks st3))
    /\ p_pages_url body = None
    /\ p_commit_sha body =
         sha_outcome svc l (snd (svc_enable_pages svc (task_id l) (world st3)))
    /\ table !! spec_idempotency_key (PyStr "a@b.c") (task_id l)
                  (round_num l) (PyStr "n1") = Some body.
Proof.
  intros svc data l st3.
  apply (C6_hosting_failure_degrades svc demo_config data idle l
           (prepared pages_down (PyInt 1)) st3 (PyStr "a@b.c") (PyStr "n1"));
    vm_compute; congruence.
Defined.

(** C7 on the Round-2 demo request. *)
Lemma C7_key_agreement_witness :
  let svc := demo_services all_well in
  let data := demo_request (PyInt 2) in
  intake_key data idle = (Ok "a@b.c::demo::round2::noncen1", idle)
  /\ persist_key data (dict_get data "round" (PyInt 1)) served =
       (Ok "a@b.c::demo::round2::noncen1", served)
  /\ round_num (demo_locals (PyInt 2)) = dict_get data "round" (PyInt 1).
Proof.
  intros svc data.
  destruct (C7_key_agreement svc data (PyStr "a@b.c") (PyStr "demo")
              (PyInt 2) (PyStr "n1") idle served)
    as (H1 & H2 & H3); [vm_compute; reflexivity .. |].
  split; [exact H1 | split; [exact H2 |]].
  apply (H3 idle (demo_locals (PyInt 2)) (prepared all_well (PyInt 2))).
  vm_compute. reflexivity.
Defined.

(** C8 with activation succeeding, with activation raising, and in
    Round 2 where the raising service is never asked. *)
Lemma C8_pages_by_round_witness :
  let svc := demo_services all_well in
  pages_handling svc demo_config (demo_locals (PyInt 1)) idle =
    (Ok (Some "https://octo.github.io/demo/"),
     advance idle 1 [EvEnablePages (PyStr "demo")])
  /\ pages_handling (demo_services pages_down) demo_config
       (demo_locals (PyInt 1)) idle =
     (Ok None, advance idle 1 [EvEnablePages (PyStr "demo")])
  /\ pages_handling (demo_services pages_down) demo_config
       (demo_locals (PyInt 2)) idle =
     (Ok (Some "https://octo.github.io/demo/"), idle).
Proof.
  intros svc. split; [|split].
  - exact (proj1 (C8_pages_by_round svc demo_config
                    (demo_locals (PyInt 1)) idle) eq_refl).
  - exact (proj1 (C8_pages_by_round (demo_services pages_down) demo_config
                    (demo_locals (PyInt 1)) idle) eq_refl).
  - exact (proj2 (C8_pages_by_round (demo_services pages_down) demo_config
                    (demo_locals (PyInt 2)) idle) eq_refl).
Defined.

(** A run with three attachments, spelled out: the second of three
    attachments cannot be read; the first and the third are committed, the
    second is not, and the run completes with its ledger entry. *)
Example partial_attachment_failure :
  let run :=
    process_request (demo_services second_unreadable) demo_config
      (demo_request (PyInt 1)) idle in
  fst run = Ok tt
  /\ commits (trace (snd run)) =
       [EvCommitText "notes.txt" "/tmp/notes.txt" "Add attachment notes.txt";
        EvCommitText "data.csv" "/tmp/data.csv" "Add attachment data.csv";
        EvCommitText "index.html" "<html></html>" "Add/Update index.html";
        EvCommitText "README.md" "# demo" "Add/Update README.md";
        EvCommitText "LICENSE" "MIT License" "Add MIT license"]
  /\ table_of (ledger_file (snd run)) !! "a@b.c::demo::round1::noncen1" =
       Some demo_payload.
Proof. vm_compute. repeat split. Qed.

(** C10 as stated fails for the round value [true]: it is not the number
    1, the request is accepted, and the pipeline takes the Round-1 branch:
    it calls hosting activation and commits the attachment. *)
Lemma C10_true_round_counterexample :
  let svc := demo_services all_well in
  let data := demo_request (PyBool true) in
  let run := process_request svc demo_config data idle in
  PyBool true <> PyInt 1
  /\ fst (receive_request svc demo_config data idle) =
       Ok [("status", "accepted"); ("note", "processing round True started")]
  /\ activations (trace (snd run)) = [EvEnablePages (PyStr "demo")]
  /\ length (commits_to ["logo.png"; "attachments/logo.png.b64"]
                        (trace (snd run))) = 2
  /\ activations (trace (snd run)) <> []
  /\ commits_to ["logo.png"; "attachments/logo.png.b64"] (trace (snd run))
       <> [].
Proof. vm_compute. repeat split; congruence. Qed.

(** C10 on a request whose round is the string "three". *)
Lemma C10_other_rounds_revise_witness :
  let svc := demo_services all_well in
  let data := demo_request (PyStr "three") in
  let l := demo_locals (PyStr "three") in
  let st1 := prepared all_well (PyStr "three") in
  let st3 := published all_well l (PyStr "three") in
  round_num l = PyStr "three"
  /\ (exists evs,
        trace (snd (process_request svc demo_config data idle)) =
          trace st1 ++ evs
        /\ Forall (is_revision l) evs)
  /\ (exists w' body table,
        process_request svc demo_config data idle =
          (Ok tt,
           State w' (Stored table)
             (trace st3 ++ [EvGetCommits] ++ notify_events data body
                ++ [EvLoadLedger; EvSaveLedger table])
             (background_tasks st3))
        /\ p_pages_url body = Some (public_url demo_config (task_id l))
        /\ p_round body = PyStr "three"
        /\ table !! "a@b.c::demo::roundthree::noncen1" = Some body).
Proof.
  intros svc data l st1 st3.
  destruct (C10_other_rounds_revise svc demo_config data idle l st1
              (PyStr "a@b.c") (PyStr "three") (PyStr "n1"))
    as (H1 & H2 & H3); [vm_compute; reflexivity .. |].
  split; [exact H1 | split; [exact H2 |]].
  apply (H3 st3). vm_compute. reflexivity.
Defined.

(** * Further properties of the handlers *)

Section KeepsRules.

Context {W X : Type} (f : state W -> X).
Hypothesis f_call : forall st w evs, f (advance st w evs) = f st.

Lemma keeps_ret {A} (a : A) : keeps f (@ret W A a).
Proof. done. Qed.

Lemma keeps_raise {A} e : keeps f (@raise W A e).
Proof. done. Qed.

Lemma keeps_bind {A B} (m : M W A) (k : A -> M W B) :
  keeps f m -> (forall a, keeps f (k a)) -> keeps f (bind m k).
Proof.
  intros Hm Hk st. unfold bind. specialize (Hm st).
  destruct (m st) as [[a|e] st1]; simpl in *; [|done].
  by rewrite Hk.
Qed.

Lemma keeps_try_except {A} (m : M W A) (h : exn -> M W A) :
  keeps f m -> (forall e, keeps f (h e)) -> keeps f (try_except m h).
Proof.
  intros Hm Hh st. unfold try_except. specialize (Hm st).
  destruct (m st) as [[a|e] st1]; simpl in *; [done|].
  by rewrite Hh.
Qed.

Lemma keeps_try_except_cls {A} (m : M W A) (c : M W string) h :
  keeps f m -> keeps f c -> (forall e, keeps f (h e)) ->
  keeps f (try_except_cls m c h).
Proof.
  intros Hm Hc Hh st. unfold try_except_cls. specialize (Hm st).
  destruct (m st) as [[a|e] st1]; simpl in *; [done|].
  specialize (Hc st1). destruct (c st1) as [[cls|e'] st2]; simpl in *.
  - destruct (isinstance e cls); simpl; [rewrite Hh|]; congruence.
  - congruence.
Qed.

Lemma keeps_call {A} ev (g : W -> result A * W) : keeps f (call ev g).
Proof. intros st. rewrite call_run. simpl. apply f_call. Qed.

Lemma keeps_getitem (d : dict) k : keeps f (@getitem W d k).
Proof. unfold getitem. by destruct (d !! k). Qed.

Lemma keeps_global name : keeps f (@global W name).
Proof. unfold global. by case_bool_decide. Qed.

Lemma keeps_for_each {A} (xs : list A) (body : A -> M W unit) :
  (forall x, keeps f (body x)) -> keeps f (for_each xs body).
Proof.
  intros Hb. induction xs as [|x xs IH]; simpl; [done|].
  apply keeps_bind; [apply Hb | by intros _].
Qed.

Lemma keeps_load_processed : keeps f (@load_processed W).
Proof. intros st. rewrite load_processed_run. simpl. apply f_call. Qed.

End KeepsRules.

Ltac keeps_step :=
  first
    [ apply keeps_ret | apply keeps_raise | apply keeps_getitem; assumption
    | apply keeps_global; assumption
    | apply keeps_load_processed; assumption
    | apply keeps_call; assumption
    | apply keeps_bind; [|intros ?]
    | apply keeps_try_except; [|intros ?] ].

Section StoreFrames.

Context {W : Type} (svc : Services W) (cfg : Config).
Implicit Types (st : state W) (data : dict) (l : locals).

Lemma ledger_file_advance st w evs :
  ledger_file (advance st w evs) = ledger_file st.
Proof. done. Qed.

Lemma background_advance st w evs :
  background_tasks (advance st w evs) = background_tasks st.
Proof. done. Qed.

Lemma prepare_keeps {X} (f : state W -> X) data :
  (forall st w evs, f (advance st w evs) = f st) ->
  keeps f (prepare svc data).
Proof.
  intros Hf.
  unfold prepare, decode_attachments, create_repo, get_contents,
    generate_app_code.
  repeat keeps_step.
  destruct (py_eq_int _ 2); repeat keeps_step.
Qed.

Lemma round_specific_keeps {X} (f : state W -> X) l :
  (forall st w evs, f (advance st w evs) = f st) ->
  keeps f (round_specific svc l).
Proof.
  intros Hf. unfold round_specific.
  destruct (py_eq_int _ 1); apply keeps_for_each.
  - intros a. unfold commit_attachment, open_read, create_or_update_file,
      create_or_update_binary_file.
    repeat keeps_step. destruct (is_text a); repeat keeps_step.
  - intros [fname content]. unfold create_or_update_file. keeps_step.
Qed.

Lemma common_steps_keeps {X} (f : state W -> X) l :
  (forall st w evs, f (advance st w evs) = f st) ->
  keeps f (common_steps svc l).
Proof.
  intros Hf. unfold common_steps, generate_mit_license.
  apply keeps_bind; [|intros _].
  - apply keeps_for_each. intros [fname content].
    unfold create_or_update_file. keeps_step.
  - unfold create_or_update_file. repeat keeps_step.
Qed.

End StoreFrames.

Section RunShapes.

Context {W : Type} (svc : Services W) (cfg : Config).
Implicit Types (st : state W) (data : dict) (l : locals).

Lemma publish_emits l : emits is_publish (publish svc l).
Proof.
  unfold publish, round_specific, common_steps, generate_mit_license.
  apply emits_bind; [|intros _; apply emits_bind; [|intros _]].
  - destruct (py_eq_int _ 1); apply emits_for_each.
    + intros a _. unfold commit_attachment, open_read, create_or_update_file,
        create_or_update_binary_file.
      repeat emits_step. destruct (is_text a); repeat emits_step.
    + intros [fname content] _. unfold create_or_update_file. emits_step.
  - apply emits_for_each. intros [fname content] _.
    unfold create_or_update_file. emits_step.
  - unfold create_or_update_file. repeat emits_step.
Qed.

Lemma publish_keeps {X} (f : state W -> X) l :
  (forall st w evs, f (advance st w evs) = f st) -> keeps f (publish svc l).
Proof.
  intros Hf. apply keeps_bind; [by apply round_specific_keeps |].
  intros _. by apply common_steps_keeps.
Qed.

(** How a run of the pipeline can end: in preparation, in publication, or
    in Steps 5-8. *)
Lemma process_request_cases data st :
  (exists e st1,
     prepare svc data st = (Raise e, st1)
     /\ process_request svc cfg data st = (Raise e, st1))
  \/ (exists l st1 e st2,
        prepare svc data st = (Ok l, st1)
        /\ publish svc l st1 = (Raise e, st2)
        /\ process_request svc cfg data st = (Raise e, st2))
  \/ (exists l st1 st3,
        prepare svc data st = (Ok l, st1)
        /\ publish svc l st1 = (Ok tt, st3)
        /\ process_request svc cfg data st = report svc cfg data l st3).
Proof.
  unfold process_request, publish, bind.
  destruct (prepare svc data st) as [[l|e] st1] eqn:Hp;
    [|left; by eexists _, _].
  right.
  destruct (round_specific svc l st1) as [[[]|e] st2] eqn:Hr.
  - destruct (common_steps svc l st2) as [[[]|e] st3] eqn:Hc.
    + right. exists l, st1, st3. by rewrite Hr, Hc.
    + left. exists l, st1, e, st3. by rewrite Hr, Hc.
  - left. exists l, st1, e, st2. by rewrite Hr.
Qed.

(** Steps 5-8 on a request that lacks one of the payload fields: the
    hosting step and the commit lookup are made, then the lookup of the
    first missing field raises. *)
Lemma report_missing_field data l st :
  data !! "email" = None \/ data !! "task" = None \/ data !! "nonce" = None ->
  exists k w,
    report svc cfg data l st =
      (Raise (KeyError k), advance st w (pages_events l ++ [EvGetCommits]))
    /\ data !! k = None.
Proof.
  intros Hmiss. unfold report.
  unfold bind at 1. rewrite pages_handling_run.
  unfold bind at 1. rewrite resolve_commit_sha_run. rewrite advance_advance.
  unfold bind, getitem, raise, ret.
  destruct (data !! "email") as [e|] eqn:He; [|by eexists "email", _].
  destruct (data !! "task") as [t|] eqn:Ht; [|by eexists "task", _].
  destruct (data !! "nonce") as [n|] eqn:Hn; [|by eexists "nonce", _].
  by destruct Hmiss as [|[|]].
Qed.

End RunShapes.

Section LedgerProperties.

Context {W : Type} (svc : Services W) (cfg : Config).
Implicit Types (st : state W) (data : dict) (l : locals).

(** Writing a table and reading the ledger back yields that table,
    whatever the store held before (nothing, text that does not parse, or
    another table). *)
Lemma save_then_load_round_trip (table : ledger) st :
  (save_processed table ;;; load_processed) st =
    (Ok table,
     State (world st) (Stored table)
       (trace st ++ [EvSaveLedger table; EvLoadLedger]) (background_tasks st)).
Proof.
  unfold bind. rewrite save_processed_run, load_processed_run.
  unfold advance. simpl. by rewrite <- app_assoc.
Qed.

(** The store after a run, in terms of the store before it. *)
Lemma process_request_store data st :
  let st' := snd (process_request svc cfg data st) in
  (fst (process_request svc cfg data st) = Ok tt
   /\ exists e t n body,
        data !! "email" = Some e /\ data !! "task" = Some t
        /\ data !! "nonce" = Some n
        /\ p_email body = e /\ p_task body = t /\ p_nonce body = n
        /\ p_round body = dict_get data "round" (PyInt 1)
        /\ ledger_file st' =
             Stored (<[spec_idempotency_key e t
                         (dict_get data "round" (PyInt 1)) n := body]>
                       (table_of (ledger_file st)))
        /\ notifications (trace st') =
             notifications (trace st) ++ notify_events data body)
  \/ ((exists e, fst (process_request svc cfg data st) = Raise e)
      /\ ledger_file st' = ledger_file st
      /\ notifications (trace st') = notifications (trace st)).
Proof.
  assert (Hnone : forall (P : event -> Prop) evs,
    (forall e, P e -> match e with EvNotify _ _ => False | _ => True end) ->
    Forall P evs -> notifications evs = []).
  { intros P evs HP. induction 1 as [|e evs He _ IH]; [done|].
    unfold notifications in *. simpl. specialize (HP e He).
    by destruct e. }
  assert (Hprep : forall l st1, prepare svc data st = (Ok l, st1) ->
    notifications (trace st1) = notifications (trace st)).
  { intros l st1 Hp. destruct (prepare_emits svc data st) as (evs & Ht & Hs).
    rewrite Hp in Ht. simpl in Ht. rewrite Ht, notifications_app.
    rewrite (Hnone is_setup evs); [by rewrite app_nil_r | by intros [] | done]. }
  assert (Hpub : forall l st1 r st2, publish svc l st1 = (r, st2) ->
    notifications (trace st2) = notifications (trace st1)).
  { intros l st1 r st2 Hp. destruct (publish_emits svc l st1) as (evs & Ht & Hs).
    rewrite Hp in Ht. simpl in Ht. rewrite Ht, notifications_app.
    rewrite (Hnone is_publish evs); [by rewrite app_nil_r | by intros [] | done]. }
  intros st'. subst st'.
  destruct (process_request_cases svc cfg data st)
    as [(e & st1 & Hp & ->) | [(l & st1 & e & st2 & Hp & Hpb & ->)
                              | (l & st1 & st3 & Hp & Hpb & ->)]].
  - right. split; [by eexists|]. simpl. split.
    + pose proof (prepare_keeps svc ledger_file data ledger_file_advance st)
        as Hk. by rewrite Hp in Hk.
    + destruct (prepare_emits svc data st) as (evs & Ht & Hs).
      rewrite Hp in Ht. simpl in Ht. rewrite Ht, notifications_app.
      rewrite (Hnone is_setup evs); [by rewrite app_nil_r | by intros [] | done].
  - right. split; [by eexists|]. simpl. split.
    + pose proof (publish_keeps svc ledger_file l ledger_file_advance st1)
        as Hk. rewrite Hpb in Hk. simpl in Hk. rewrite Hk.
      pose proof (prepare_keeps svc ledger_file data ledger_file_advance st)
        as Hk'. by rewrite Hp in Hk'.
    + by rewrite (Hpub _ _ _ _ Hpb), (Hprep _ _ Hp).
  - assert (Hl3 : ledger_file st3 = ledger_file st).
    { pose proof (publish_keeps svc ledger_file l ledger_file_advance st1)
        as Hk. rewrite Hpb in Hk. simpl in Hk. rewrite Hk.
      pose proof (prepare_keeps svc ledger_file data ledger_file_advance st)
        as Hk'. by rewrite Hp in Hk'. }
    assert (Hn3 : notifications (trace st3) = notifications (trace st)).
    { by rewrite (Hpub _ _ _ _ Hpb), (Hprep _ _ Hp). }
    destruct (prepare_locals svc _ _ _ _ Hp) as (Hround & Ht & _).
    destruct (data !! "email") as [e|] eqn:He;
      [destruct (data !! "nonce") as [n|] eqn:Hn|].
    + left.
      destruct (report_run svc cfg data l st3 e (task_id l) n He Ht Hn)
        as (w' & ->).
      split; [done|]. simpl.
      eexists e, (task_id l), n, _. rewrite Hl3, <- Hround.
      repeat split; try done.
      rewrite notifications_app, Hn3. f_equal.
      rewrite !notifications_app.
      assert (notifications (pages_events l) = []) as ->.
      { unfold pages_events. by destruct (py_eq_int _ 1). }
      simpl. rewrite notifications_app. simpl. rewrite app_nil_r.
      unfold notify_events. by destruct (data !! "evaluation_url").
    + right.
      destruct (report_missing_field svc cfg data l st3) as (k & w & -> & _);
        [by right; right|].
      split; [by eexists|]. simpl. split; [done|].
      rewrite notifications_app, Hn3, notifications_app.
      assert (notifications (pages_events l) = []) as ->.
      { unfold pages_events. by destruct (py_eq_int _ 1). }
      by rewrite app_nil_r.
    + right.
      destruct (report_missing_field svc cfg data l st3) as (k & w & -> & _);
        [by left|].
      split; [by eexists|]. simpl. split; [done|].
      rewrite notifications_app, Hn3, notifications_app.
      assert (notifications (pages_events l) = []) as ->.
      { unfold pages_events. by destruct (py_eq_int _ 1). }
      by rewrite app_nil_r.
Qed.

End LedgerProperties.

Section LedgerTheorems.

Context {W : Type} (svc : Services W) (cfg : Config).
Implicit Types (st : state W) (data : dict) (l : locals).

(** X2. The pipeline never deletes a ledger entry: an entry present before
    a run is present after it, and it keeps its payload unless its key is
    the key of the request being processed. *)
Theorem pipeline_never_deletes_entries data st k p :
  table_of (ledger_file st) !! k = Some p ->
  let st' := snd (process_request svc cfg data st) in
  is_Some (table_of (ledger_file st') !! k)
  /\ (table_of (ledger_file st') !! k = Some p
      \/ exists e t n,
           data !! "email" = Some e /\ data !! "task" = Some t
           /\ data !! "nonce" = Some n
           /\ k = spec_idempotency_key e t (dict_get data "round" (PyInt 1)) n).
Proof.
  intros Hk st'. subst st'.
  destruct (process_request_store svc cfg data st)
    as [(_ & e & t & n & body & He & Ht & Hn & _ & _ & _ & _ & -> & _)
       | (_ & -> & _)]; simpl.
  - destruct (decide
      (spec_idempotency_key e t (dict_get data "round" (PyInt 1)) n = k))
      as [<-|Hne].
    + rewrite lookup_insert_eq. split; [by eexists|]. right. by exists e, t, n.
    + rewrite lookup_insert_ne by done. rewrite Hk. split; [by eexists|].
      by left.
  - rewrite Hk. split; [by eexists | by left].
Qed.

(** X4. Once a run has completed, the same request is a duplicate: with a
    valid secret and a [round] field, the intake handler finds the entry
    the run wrote, re-sends that payload and schedules nothing.  The
    payload is the one the run itself notified. *)
Theorem served_request_is_duplicate data st st' r :
  process_request svc cfg data st = (Ok tt, st') ->
  dict_get data "secret" PyNone = of_env (USER_SECRET cfg) ->
  data !! "round" = Some r ->
  exists body,
    let url := dict_get data "evaluation_url" PyNone in
    receive_request svc cfg data st' =
      (Ok [("status", "ok"); ("note", "duplicate handled & re-notified")],
       advance st'
         (snd (svc_notify_evaluation_server svc url body (world st')))
         [EvLoadLedger; EvNotify url body])
    /\ p_round body = r
    /\ notifications (trace st') =
         notifications (trace st) ++ notify_events data body.
Proof.
  intros Hrun Hs Hr.
  destruct (process_request_store svc cfg data st)
    as [(_ & e & t & n & body & He & Ht & Hn & _ & _ & _ & Hpr & Hl & Hnt)
       | ([e He] & _)]; [|rewrite Hrun in He; discriminate].
  rewrite Hrun in Hl, Hnt. simpl in Hl, Hnt.
  assert (Hround : dict_get data "round" (PyInt 1) = r).
  { unfold dict_get. by rewrite Hr. }
  rewrite Hround in Hl, Hpr.
  exists body. split; [|done].
  apply (receive_request_hit svc cfg data st' e t r n body Hs He Ht Hr Hn).
  rewrite Hl. simpl. apply lookup_insert_eq.
Qed.

End LedgerTheorems.

Section IntakeTheorems.

Context {W : Type} (svc : Services W) (cfg : Config).
Implicit Types (st : state W) (data : dict).

(** X5. A request with a valid secret whose key is not in the ledger (in
    particular when no ledger file exists yet) is answered "accepted" with
    the round in the note, is scheduled exactly once, and causes no call
    other than the ledger read. *)
Theorem fresh_request_scheduled_once data st e t r n :
  dict_get data "secret" PyNone = of_env (USER_SECRET cfg) ->
  data !! "email" = Some e -> data !! "task" = Some t ->
  data !! "round" = Some r -> data !! "nonce" = Some n ->
  table_of (ledger_file st) !! spec_idempotency_key e t r n = None ->
  receive_request svc cfg data st =
    (Ok [("status", "accepted");
         ("note", "processing round " +:+ py_str r +:+ " started")],
     State (world st) (ledger_file st) (trace st ++ [EvLoadLedger])
           (background_tasks st ++ [data])).
Proof. apply receive_request_miss. Qed.

(** X6. A request with a valid secret that lacks one of [email], [task],
    [round], [nonce] makes the handler raise [KeyError] for the first
    field missing in that order, after the ledger read; nothing is
    scheduled and nothing is notified. *)
Theorem intake_missing_field_raises data st :
  dict_get data "secret" PyNone = of_env (USER_SECRET cfg) ->
  data !! "email" = None \/ data !! "task" = None
  \/ data !! "round" = None \/ data !! "nonce" = None ->
  exists present k absent,
    ["email"; "task"; "round"; "nonce"] = present ++ k :: absent
    /\ Forall (fun field => is_Some (data !! field)) present
    /\ data !! k = None
    /\ receive_request svc cfg data st =
         (Raise (KeyError k), advance st (world st) [EvLoadLedger]).
Proof.
  intros Hs Hmiss. unfold receive_request.
  apply py_eq_env_spec in Hs. rewrite Hs. simpl.
  unfold bind at 1. rewrite load_processed_run.
  unfold bind at 1. unfold intake_key, bind, getitem, raise, ret.
  destruct (data !! "email") eqn:He;
    [|by exists [], "email", ["task"; "round"; "nonce"]].
  destruct (data !! "task") eqn:Ht.
  2:{ exists ["email"], "task", ["round"; "nonce"].
      repeat split; [|done]. rewrite Forall_singleton, He. by eexists. }
  destruct (data !! "round") eqn:Hr.
  2:{ exists ["email"; "task"], "round", ["nonce"].
      repeat split; [|done]. repeat constructor; rewrite ?He, ?Ht; by eexists. }
  destruct (data !! "nonce") eqn:Hn.
  2:{ exists ["email"; "task"; "round"], "nonce", [].
      repeat split; [|done].
      repeat constructor; rewrite ?He, ?Ht, ?Hr; by eexists. }
  by destruct Hmiss as [|[|[|]]].
Qed.

Lemma add_task_emits P data : emits P (@add_task W data).
Proof. intros st. exists []. by rewrite app_nil_r. Qed.

(** X7. On every path (rejected, failed, duplicate or accepted) the intake
    handler leaves the ledger file as it is and makes no repository call:
    the only calls it can make are the ledger read and a notification. *)
Theorem intake_never_writes data st :
  let st' := snd (receive_request svc cfg data st) in
  ledger_file st' = ledger_file st
  /\ commits (trace st') = commits (trace st)
  /\ exists evs, trace st' = trace st ++ evs /\ Forall is_intake evs.
Proof.
  assert (Hk : keeps ledger_file (receive_request svc cfg data)).
  { pose proof (@ledger_file_advance W) as Hadv.
    unfold receive_request, intake_key, notify_evaluation_server.
    destruct (negb _); [apply keeps_ret|].
    apply keeps_bind; [by apply keeps_load_processed | intros processed].
    apply keeps_bind; [repeat keeps_step | intros key].
    destruct (processed !! key); repeat keeps_step; done. }
  assert (He : emits is_intake (receive_request svc cfg data)).
  { unfold receive_request, intake_key, notify_evaluation_server.
    destruct (negb _); [apply emits_ret|].
    apply emits_bind; [by apply emits_load_processed | intros processed].
    apply emits_bind; [repeat emits_step | intros key].
    destruct (processed !! key); repeat first [apply add_task_emits | emits_step]. }
  intros st'. subst st'. split; [apply Hk | split; [|apply He]].
  destruct (He st) as (evs & -> & Hevs). rewrite commits_app.
  rewrite (commits_none is_intake evs); [by rewrite app_nil_r | | done].
  by intros [].
Qed.

(** X8. When [USER_SECRET] is not set, a request that carries no secret
    (or a null one) passes the secret check and is scheduled like any
    authorised request. *)
Theorem unset_secret_admits_missing_secret data st e t r n :
  USER_SECRET cfg = None ->
  dict_get data "secret" PyNone = PyNone ->
  data !! "email" = Some e -> data !! "task" = Some t ->
  data !! "round" = Some r -> data !! "nonce" = Some n ->
  table_of (ledger_file st) !! spec_idempotency_key e t r n = None ->
  fst (receive_request svc cfg data st) =
    Ok [("status", "accepted");
        ("note", "processing round " +:+ py_str r +:+ " started")]
  /\ background_tasks (snd (receive_request svc cfg data st)) =
       background_tasks st ++ [data].
Proof.
  intros Hu Hs He Ht Hr Hn Hmiss.
  rewrite (receive_request_miss svc cfg data st e t r n); try done.
  by rewrite Hs, Hu.
Qed.

End IntakeTheorems.

Section PipelineEdges.

Context {W : Type} (svc : Services W) (cfg : Config).
Implicit Types (st : state W) (data : dict) (l : locals) (r : repo).

(** X9. A request without [task] stops the pipeline at once, before any
    call; a request with [task] but without [brief] stops it with
    [KeyError] after the attachments were decoded and before the
    repository is created. *)
Theorem pipeline_missing_task_or_brief data st :
  (data !! "task" = None ->
     process_request svc cfg data st = (Raise (KeyError "task"), st))
  /\ (forall t decoded,
        data !! "task" = Some t -> data !! "brief" = None ->
        let attachments := dict_get data "attachments" (PyObj "[]") in
        fst (svc_decode_attachments svc attachments (world st)) = Ok decoded ->
        process_request svc cfg data st =
          (Raise (KeyError "brief"),
           advance st (snd (svc_decode_attachments svc attachments (world st)))
             [EvDecodeAttachments attachments])).
Proof.
  split.
  - intros Ht. unfold process_request, prepare, bind, getitem.
    by rewrite Ht.
  - intros t decoded Ht Hb attachments Hd.
    unfold process_request, prepare, bind, getitem, decode_attachments.
    rewrite Ht. simpl. rewrite call_run. fold attachments. rewrite Hd, Hb.
    done.
Qed.

(** X10. The pipeline reads [round] with a default: a request without
    [round] is processed as Round 1 (hosting activation is attempted, the
    ledger key is formatted with [round1]), whereas the intake handler
    refuses the same request with [KeyError] on [round]. *)
Theorem missing_round_runs_as_round_one data st l st1 e t n :
  data !! "round" = None ->
  prepare svc data st = (Ok l, st1) ->
  data !! "email" = Some e -> data !! "task" = Some t ->
  data !! "nonce" = Some n ->
  round_num l = PyInt 1
  /\ pages_events l = [EvEnablePages (task_id l)]
  /\ (forall sb : state W,
        persist_key data (round_num l) sb =
          (Ok (py_str e +:+ "::" +:+ py_str t +:+ "::round1::nonce"
               +:+ py_str n), sb))
  /\ (forall sa : state W,
        dict_get data "secret" PyNone = of_env (USER_SECRET cfg) ->
        fst (receive_request svc cfg data sa) = Raise (KeyError "round")).
Proof.
  intros Hr Hp He Ht Hn.
  destruct (prepare_locals svc _ _ _ _ Hp) as (Hround & _).
  unfold dict_get in Hround. rewrite Hr in Hround.
  split; [done | split; [|split]].
  - unfold pages_events. by rewrite Hround.
  - intros sb. rewrite Hround.
    by rewrite (persist_key_run data e t n (PyInt 1) sb He Ht Hn).
  - intros sa Hs. unfold receive_request.
    apply py_eq_env_spec in Hs. rewrite Hs. simpl.
    unfold bind at 1. rewrite load_processed_run.
    unfold bind at 1. unfold intake_key, bind, getitem.
    by rewrite He, Ht, Hr.
Qed.

(** X11. The previous README is fetched only when the round equals 2, and
    a failed fetch is not an error: generation is then called without
    prior context.  The calls of the preparation phase are, in order:
    decode, create repository, (round 2 only) read README, generate. *)
Theorem readme_fetched_only_in_round_two data st t b decoded w1 r w2 :
  data !! "task" = Some t -> data !! "brief" = Some b ->
  let attachments := dict_get data "attachments" (PyObj "[]") in
  let round := dict_get data "round" (PyInt 1) in
  let description := "Auto-generated app for task: " +:+ py_str b in
  svc_decode_attachments svc attachments (world st) = (Ok decoded, w1) ->
  svc_create_repo svc t description w1 = (Ok r, w2) ->
  let prev_readme :=
    if py_eq_int round 2 then
      match fst (svc_get_contents svc r "README.md" w2) with
      | Ok content => Some (utf8_decode_ignore svc content)
      | Raise _ => None
      end
    else None in
  trace (snd (prepare svc data st)) =
    trace st
    ++ [EvDecodeAttachments attachments; EvCreateRepo t description]
    ++ (if py_eq_int round 2 then [EvGetContents "README.md"] else [])
    ++ [EvGenerate b attachments (dict_get data "checks" (PyObj "[]")) round
          prev_readme].
Proof.
  intros Ht Hb attachments round description Hd Hc prev_readme.
  unfold prepare, bind, getitem, decode_attachments, create_repo,
    get_contents, generate_app_code, try_except, try_except_cls, ret.
  rewrite Ht. simpl. rewrite call_run. fold attachments. rewrite Hd, Hb.
  simpl. rewrite call_run. simpl. fold description. rewrite Hc. simpl.
  fold round. subst prev_readme. destruct (py_eq_int round 2).
  - rewrite call_run. simpl.
    destruct (svc_get_contents svc r "README.md" w2) as [[content|err] w3];
      simpl; rewrite call_run; simpl;
      destruct (svc_generate_app_code _ _ _ _ _ _ _) as [[g|err'] w4];
      simpl; by rewrite <- !app_assoc.
  - rewrite call_run. simpl.
    destruct (svc_generate_app_code _ _ _ _ _ _ _) as [[g|err'] w4];
      simpl; by rewrite <- !app_assoc.
Qed.

End PipelineEdges.

Section DegradationTheorems.

Context {W : Type} (svc : Services W) (cfg : Config).
Implicit Types (st : state W) (data : dict) (l : locals) (r : repo).

(** X12. When the commit lookup raises, the run still completes: the
    payload notified and stored has [commit_sha] null and keeps the
    [pages_url] that Step 5 computed. *)
Theorem commit_lookup_failure_degrades data st l st1 st3 e n err :
  prepare svc data st = (Ok l, st1) ->
  publish svc l st1 = (Ok tt, st3) ->
  data !! "email" = Some e -> data !! "nonce" = Some n ->
  fst (svc_latest_commit_sha svc (the_repo l)
         (pages_world svc l (world st3))) = Raise err ->
  exists w' body table,
    process_request svc cfg data st =
      (Ok tt,
       State w' (Stored table)
         (trace st3 ++ pages_events l ++ [EvGetCommits]
            ++ notify_events data body ++ [EvLoadLedger; EvSaveLedger table])
         (background_tasks st3))
    /\ p_commit_sha body = None
    /\ p_pages_url body = pages_outcome svc cfg l (world st3)
    /\ table !! spec_idempotency_key e (task_id l) (round_num l) n = Some body.
Proof.
  intros Hp Hpub He Hn Hsha.
  destruct (prepare_locals svc _ _ _ _ Hp) as (_ & Ht & _).
  rewrite (process_request_reaches svc cfg _ _ _ _ _ Hp Hpub).
  destruct (report_run svc cfg data l st3 e (task_id l) n He Ht Hn)
    as (w' & ->).
  eexists w', _, _. split; [reflexivity|]. simpl.
  split; [|split; [done | apply lookup_insert_eq]].
  unfold sha_outcome. by rewrite Hsha.
Qed.

(** X13. A notification that raises, or a request without
    [evaluation_url], changes nothing else: the run completes and the
    ledger entry is the one a delivered notification would have left.  At
    most one notification call is made. *)
Theorem notification_failure_is_swallowed data st l st1 st3 e n :
  prepare svc data st = (Ok l, st1) ->
  publish svc l st1 = (Ok tt, st3) ->
  data !! "email" = Some e -> data !! "nonce" = Some n ->
  let body := payload_of svc cfg data l (world st3) e (task_id l) n in
  let st' := snd (process_request svc cfg data st) in
  fst (process_request svc cfg data st) = Ok tt
  /\ ledger_file st' =
       Stored (<[spec_idempotency_key e (task_id l) (round_num l) n := body]>
                 (table_of (ledger_file st3)))
  /\ notifications (trace st') =
       notifications (trace st3) ++ notify_events data body
  /\ (data !! "evaluation_url" = None ->
      notifications (trace st') = notifications (trace st3)).
Proof.
  intros Hp Hpub He Hn body st'. subst st'.
  destruct (prepare_locals svc _ _ _ _ Hp) as (_ & Ht & _).
  rewrite (process_request_reaches svc cfg _ _ _ _ _ Hp Hpub).
  destruct (report_run svc cfg data l st3 e (task_id l) n He Ht Hn)
    as (w' & ->).
  simpl. fold body.
  assert (Hpe : notifications (pages_events l) = []).
  { unfold pages_events. by destruct (py_eq_int _ 1). }
  assert (Hne : notifications (notify_events data body) =
                notify_events data body).
  { unfold notify_events. by destruct (data !! "evaluation_url"). }
  assert (Hnt : notifications
    (trace st3 ++ pages_events l ++ EvGetCommits
       :: notify_events data body
       ++ [EvLoadLedger;
           EvSaveLedger
             (<[spec_idempotency_key e (task_id l) (round_num l) n := body]>
                (table_of (ledger_file st3)))]) =
    notifications (trace st3) ++ notify_events data body).
  { rewrite !notifications_app, Hpe. simpl.
    rewrite notifications_app, Hne. simpl. by rewrite app_nil_r. }
  split; [done | split; [done | split; [exact Hnt|]]].
  intros Hu. rewrite Hnt. unfold notify_events. rewrite Hu.
  by rewrite app_nil_r.
Qed.

(** X14. A request without [email] or without [nonce] is published in
    full and then fails: after the hosting step and the commit lookup the
    payload cannot be assembled, [KeyError] is raised, nothing is notified
    and the ledger is neither read nor written. *)
Theorem missing_payload_field_aborts_after_publishing data st l st1 st3 :
  prepare svc data st = (Ok l, st1) ->
  publish svc l st1 = (Ok tt, st3) ->
  data !! "email" = None \/ data !! "nonce" = None ->
  exists k w,
    process_request svc cfg data st =
      (Raise (KeyError k),
       advance st3 w (pages_events l ++ [EvGetCommits]))
    /\ data !! k = None.
Proof.
  intros Hp Hpub Hmiss.
  rewrite (process_request_reaches svc cfg _ _ _ _ _ Hp Hpub).
  apply report_missing_field. destruct Hmiss; auto.
Qed.

(** X15. A text attachment (by mime type or by extension) whose read and
    commit succeed is committed once, under its own name, as decoded text;
    no binary upload and no base64 backup is made for it. *)
Theorem text_attachment_single_commit r a st content :
  is_text a = true ->
  fst (svc_open_read svc (att_path a) (world st)) = Ok content ->
  (forall w, fst (svc_create_or_update_file svc r (att_name a)
                    (utf8_decode_ignore svc content)
                    ("Add attachment " +:+ att_name a) w) = Ok tt) ->
  exists w,
    commit_attachment svc r a st =
      (Ok tt,
       advance st w
         [EvOpen (att_path a);
          EvCommitText (att_name a) (utf8_decode_ignore svc content)
            ("Add attachment " +:+ att_name a)]).
Proof.
  intros Ht Hr Hc.
  unfold commit_attachment, try_except, bind, open_read, create_or_update_file.
  rewrite Ht, call_run, Hr. simpl. rewrite call_run, Hc. simpl.
  rewrite advance_advance. by eexists.
Qed.

(** X16. When the native upload of a binary attachment raises, its base64
    backup is not attempted: only the read and the failed upload were
    made, and the loop goes on. *)
Theorem rejected_binary_has_no_backup r a st content err :
  is_text a = false ->
  fst (svc_open_read svc (att_path a) (world st)) = Ok content ->
  (forall w, fst (svc_create_or_update_binary_file svc r (att_name a) content
                    ("Add binary " +:+ att_name a) w) = Raise err) ->
  exists w,
    commit_attachment svc r a st =
      (Ok tt,
       advance st w
         [EvOpen (att_path a);
          EvCommitBinary (att_name a) content
            ("Add binary " +:+ att_name a)]).
Proof.
  intros Ht Hr Hc.
  unfold commit_attachment, try_except, bind, open_read,
    create_or_update_binary_file.
  rewrite Ht, call_run, Hr. simpl. rewrite call_run, Hc. simpl.
  unfold ret. rewrite advance_advance. by eexists.
Qed.

(** X20. Whatever happens, the calls of a run come in three phases, in
    this order: preparation, repository writes, reporting.  So no
    repository write follows hosting activation or a notification, and
    nothing is notified before the writes are over.  The pipeline never
    schedules a background task. *)
Theorem pipeline_phases_in_order data st :
  let st' := snd (process_request svc cfg data st) in
  (exists setup writes reporting,
     trace st' = trace st ++ setup ++ writes ++ reporting
     /\ Forall is_setup setup /\ Forall is_publish writes
     /\ Forall is_report reporting)
  /\ background_tasks st' = background_tasks st.
Proof.
  intros st'. subst st'.
  pose proof (prepare_emits svc data st) as (evp & Htp & Hsp).
  pose proof (prepare_keeps svc background_tasks data background_advance st)
    as Hbp.
  destruct (process_request_cases svc cfg data st)
    as [(e & st1 & Hp & ->) | [(l & st1 & e & st2 & Hp & Hpb & ->)
                              | (l & st1 & st3 & Hp & Hpb & ->)]];
    rewrite Hp in Htp, Hbp; simpl in Htp, Hbp; simpl.
  - split; [|done]. exists evp, [], []. rewrite !app_nil_r. by repeat split.
  - pose proof (publish_emits svc l st1) as (evw & Htw & Hsw).
    pose proof (publish_keeps svc background_tasks l background_advance st1)
      as Hbw.
    rewrite Hpb in Htw, Hbw. simpl in Htw, Hbw.
    split; [|congruence]. exists evp, evw, []. rewrite Htw, Htp, app_nil_r.
    rewrite <- app_assoc. by repeat split.
  - pose proof (publish_emits svc l st1) as (evw & Htw & Hsw).
    pose proof (publish_keeps svc background_tasks l background_advance st1)
      as Hbw.
    rewrite Hpb in Htw, Hbw. simpl in Htw, Hbw.
    destruct (report_emits svc cfg data l st3) as (evr & Htr & Hsr).
    split.
    + exists evp, evw, evr. rewrite Htr, Htw, Htp, <- !app_assoc.
      by repeat split.
    + destruct (data !! "email") as [e|] eqn:He;
        [destruct (data !! "nonce") as [n|] eqn:Hn|].
      * destruct (prepare_locals svc _ _ _ _ Hp) as (_ & Ht & _).
        destruct (report_run svc cfg data l st3 e (task_id l) n He Ht Hn)
          as (w' & ->). simpl. congruence.
      * destruct (report_missing_field svc cfg data l st3)
          as (k & w & -> & _); [by right; right | simpl; congruence].
      * destruct (report_missing_field svc cfg data l st3)
          as (k & w & -> & _); [by left | simpl; congruence].
Qed.

(** X21. The commits of generated files are not guarded: if the upsert of
    the first generated file raises in Step 4, the run ends there with
    that exception; the license, the hosting step, the notification and
    the ledger write do not happen. *)
Theorem failed_file_upsert_aborts data st l st1 st2 fname content rest err :
  prepare svc data st = (Ok l, st1) ->
  round_specific svc l st1 = (Ok tt, st2) ->
  files l = (fname, content) :: rest ->
  fst (svc_create_or_update_file svc (the_repo l) fname content
         ("Add/Update " +:+ fname) (world st2)) = Raise err ->
  exists w,
    process_request svc cfg data st =
      (Raise err,
       advance st2 w
         [EvCommitText fname content ("Add/Update " +:+ fname)]).
Proof.
  intros Hp Hrs Hf Herr.
  unfold process_request. unfold bind at 1. rewrite Hp.
  unfold bind at 1. rewrite Hrs.
  unfold bind at 1. unfold common_steps. unfold bind at 1. rewrite Hf.
  simpl. unfold bind at 1. unfold create_or_update_file at 1.
  rewrite call_run, Herr. by eexists.
Qed.

End DegradationTheorems.

(** ** Strings: routing by name and the shape of the key *)

Lemma string_app_cons x (a b : string) : String x a +:+ b = String x (a +:+ b).
Proof. reflexivity. Qed.

Lemma string_app_assoc (a b c : string) : (a +:+ b) +:+ c = a +:+ (b +:+ c).
Proof.
  induction a as [|x a IH]; [done|]. by rewrite !string_app_cons, IH.
Qed.

Lemma string_app_nil_r (a : string) : a +:+ "" = a.
Proof. induction a as [|x a IH]; [done|]. by rewrite string_app_cons, IH. Qed.

Lemma rev_app_app (s1 s2 s3 : string) :
  String.rev_app s1 s2 +:+ s3 = String.rev_app s1 (s2 +:+ s3).
Proof.
  revert s2. induction s1 as [|x s1 IH]; intros s2; [done|].
  change (String.rev_app s1 (String x s2) +:+ s3 =
          String.rev_app s1 (String x (s2 +:+ s3))).
  by rewrite IH.
Qed.

Lemma string_rev_cons x (s : string) :
  String.rev (String x s) = String.rev s +:+ String x "".
Proof.
  unfold String.rev.
  change (String.rev_app s (String x "") = String.rev_app s "" +:+ String x "").
  by rewrite rev_app_app.
Qed.

Lemma string_rev_app (a b : string) :
  String.rev (a +:+ b) = String.rev b +:+ String.rev a.
Proof.
  induction a as [|x a IH].
  - change (String.rev b = String.rev b +:+ ""). by rewrite string_app_nil_r.
  - by rewrite string_app_cons, !string_rev_cons, IH, string_app_assoc.
Qed.

Lemma string_rev_involutive (s : string) : String.rev (String.rev s) = s.
Proof.
  induction s as [|x s IH]; [done|].
  by rewrite string_rev_cons, string_rev_app, IH.
Qed.

Lemma prefix_spec (p s : string) :
  String.prefix p s = true <-> exists q, s = p +:+ q.
Proof.
  revert s. induction p as [|x p IH]; intros s.
  - destruct s; simpl; split; eauto.
  - destruct s as [|y s]; simpl.
    + split; [done | by intros [q ?]].
    + destruct (ascii_dec x y) as [->|Hne].
      * rewrite IH. split; intros [q Hq]; exists q.
        -- by rewrite string_app_cons, Hq.
        -- rewrite string_app_cons in Hq. congruence.
      * split; [done | intros [q Hq]].
        rewrite string_app_cons in Hq. congruence.
Qed.

Lemma string_app_inv_tail (a b t : string) : a +:+ t = b +:+ t -> a = b.
Proof.
  intros H. apply (f_equal String.rev) in H. rewrite !string_rev_app in H.
  apply (inj _) in H. apply (f_equal String.rev) in H.
  by rewrite !string_rev_involutive in H.
Qed.
Lemma startswith_spec (s p : string) :
  startswith s p = true <-> exists q, s = p +:+ q.
Proof. apply prefix_spec. Qed.

Lemma endswith_spec (s p : string) :
  endswith s p = true <-> exists q, s = q +:+ p.
Proof.
  unfold endswith. rewrite prefix_spec. split.
  - intros [q Hq]. exists (String.rev q).
    apply (f_equal String.rev) in Hq.
    by rewrite string_rev_involutive, string_rev_app, string_rev_involutive
      in Hq.
  - intros [q ->]. exists (String.rev q). apply string_rev_app.
Qed.

(** X17. An attachment is routed as text exactly when its mime type
    begins with "text" or its name ends with one of [.md], [.csv],
    [.json], [.txt] (compared as written, so [.TXT] does not count). *)
Theorem is_text_spec (a : attachment) :
  is_text a = true <->
  (exists rest, att_mime a = "text" +:+ rest)
  \/ (exists stem ext,
        ext ∈ [".md"; ".csv"; ".json"; ".txt"]
        /\ att_name a = stem +:+ ext).
Proof.
  unfold is_text. rewrite orb_true_iff, startswith_spec, existsb_exists.
  split; (intros [H|H]; [by left | right]).
  - destruct H as (ext & Hin & Hend). apply endswith_spec in Hend as [stem ->].
    exists stem, ext. split; [by apply list_elem_of_In | done].
  - destruct H as (stem & ext & Hin & ->). exists ext.
    split; [by apply list_elem_of_In |]. apply endswith_spec. by exists stem.
Qed.

Section KeyTheorems.

Context {W : Type} (svc : Services W) (cfg : Config).
Implicit Types (st : state W) (data : dict).

(** X18. The key is built from the [str()] rendering of the fields, so two
    round values with the same rendering (the string "1" and the number 1,
    say) give the same key: once an entry exists for one of them, a
    request carrying the other is answered as its duplicate. *)
Theorem same_rendering_same_key data st e t r r' n stored :
  py_str r = py_str r' ->
  dict_get data "secret" PyNone = of_env (USER_SECRET cfg) ->
  data !! "email" = Some e -> data !! "task" = Some t ->
  data !! "round" = Some r -> data !! "nonce" = Some n ->
  table_of (ledger_file st) !! spec_idempotency_key e t r' n = Some stored ->
  intake_key data st = (Ok (spec_idempotency_key e t r' n), st)
  /\ fst (receive_request svc cfg data st) =
       Ok [("status", "ok"); ("note", "duplicate handled & re-notified")]
  /\ notifications (trace (snd (receive_request svc cfg data st))) =
       notifications (trace st)
       ++ [EvNotify (dict_get data "evaluation_url" PyNone) stored].
Proof.
  intros Hstr Hs He Ht Hr Hn Hhit.
  assert (Hkey : spec_idempotency_key e t r n = spec_idempotency_key e t r' n).
  { unfold spec_idempotency_key. by rewrite Hstr. }
  rewrite <- Hkey in *. split; [by apply intake_key_run|].
  rewrite (receive_request_hit svc cfg data st e t r n stored Hs He Ht Hr Hn Hhit).
  split; [done|]. simpl. by rewrite notifications_app.
Qed.

(** X19. Requests that agree on [email], [task] and [nonce] and carry
    different integer rounds never share a key: Round 2 of a task is not
    taken for a duplicate of its Round 1. *)
Theorem integer_rounds_have_distinct_keys data1 data2 e t n r1 r2 (sa sb : state W) :
  data1 !! "email" = Some e -> data1 !! "task" = Some t ->
  data1 !! "round" = Some (PyInt r1) -> data1 !! "nonce" = Some n ->
  data2 !! "email" = Some e -> data2 !! "task" = Some t ->
  data2 !! "round" = Some (PyInt r2) -> data2 !! "nonce" = Some n ->
  r1 <> r2 ->
  fst (intake_key data1 sa) <> fst (intake_key data2 sb).
Proof.
  intros He1 Ht1 Hr1 Hn1 He2 Ht2 Hr2 Hn2 Hne.
  rewrite (intake_key_run data1 e t (PyInt r1) n sa He1 Ht1 Hr1 Hn1).
  rewrite (intake_key_run data2 e t (PyInt r2) n sb He2 Ht2 Hr2 Hn2).
  simpl. intros [= Heq]. apply Hne. unfold spec_idempotency_key in Heq.
  do 5 apply (inj _) in Heq.
  apply string_app_inv_tail in Heq. simpl in Heq. by apply (inj _) in Heq.
Qed.

End KeyTheorems.

(** ** The further properties on concrete runs *)

(** X2 on a Round-2 run started after Round 1 was served. *)
Lemma pipeline_never_deletes_entries_witness :
  let st' :=
    snd (process_request (demo_services all_well) demo_config
           (demo_request (PyInt 2)) served) in
  is_Some (table_of (ledger_file st') !! demo_key)
  /\ (table_of (ledger_file st') !! demo_key = Some demo_payload
      \/ exists e t n,
           demo_request (PyInt 2) !! "email" = Some e
           /\ demo_request (PyInt 2) !! "task" = Some t
           /\ demo_request (PyInt 2) !! "nonce" = Some n
           /\ demo_key =
                spec_idempotency_key e t
                  (dict_get (demo_request (PyInt 2)) "round" (PyInt 1)) n).
Proof.
  apply (pipeline_never_deletes_entries (demo_services all_well) demo_config
           (demo_request (PyInt 2)) served demo_key demo_payload).
  vm_compute. reflexivity.
Defined.

(** X4 on the Round-1 demo request. *)
Lemma served_request_is_duplicate_witness :
  let svc := demo_services all_well in
  let data := demo_request (PyInt 1) in
  exists body,
    let url := dict_get data "evaluation_url" PyNone in
    receive_request svc demo_config data served =
      (Ok [("status", "ok"); ("note", "duplicate handled & re-notified")],
       advance served
         (snd (svc_notify_evaluation_server svc url body (world served)))
         [EvLoadLedger; EvNotify url body])
    /\ p_round body = PyInt 1
    /\ notifications (trace served) =
         notifications (trace idle) ++ notify_events data body.
Proof.
  intros svc data.
  apply (served_request_is_duplicate svc demo_config data idle served (PyInt 1));
    vm_compute; reflexivity.
Defined.

(** X5 on the first submission of the demo request. *)
Lemma fresh_request_scheduled_once_witness :
  receive_request (demo_services all_well) demo_config
    (demo_request (PyInt 1)) idle =
    (Ok [("status", "accepted"); ("note", "processing round 1 started")],
     State 0 NoFile [EvLoadLedger] [demo_request (PyInt 1)]).
Proof.
  apply (fresh_request_scheduled_once (demo_services all_well) demo_config
           (demo_request (PyInt 1)) idle (PyStr "a@b.c") (PyStr "demo")
           (PyInt 1) (PyStr "n1")); vm_compute; reflexivity.
Defined.

(** X6 on the demo request without its nonce. *)
Lemma intake_missing_field_raises_witness :
  let data := without "nonce" (demo_request (PyInt 1)) in
  exists present k absent,
    ["email"; "task"; "round"; "nonce"] = present ++ k :: absent
    /\ Forall (fun field => is_Some (data !! field)) present
    /\ data !! k = None
    /\ receive_request (demo_services all_well) demo_config data idle =
         (Raise (KeyError k), advance idle (world idle) [EvLoadLedger]).
Proof.
  intros data.
  apply (intake_missing_field_raises (demo_services all_well) demo_config
           data idle).
  - vm_compute. reflexivity.
  - right. right. right. vm_compute. reflexivity.
Defined.

(** X8 on the demo request without its secret, with no secret configured. *)
Lemma unset_secret_admits_missing_secret_witness :
  let data := without "secret" (demo_request (PyInt 1)) in
  fst (receive_request (demo_services all_well) no_secret_config data idle) =
    Ok [("status", "accepted"); ("note", "processing round 1 started")]
  /\ background_tasks
       (snd (receive_request (demo_services all_well) no_secret_config data
               idle)) = background_tasks idle ++ [data].
Proof.
  intros data.
  apply (unset_secret_admits_missing_secret (demo_services all_well)
           no_secret_config data idle (PyStr "a@b.c") (PyStr "demo")
           (PyInt 1) (PyStr "n1")); vm_compute; reflexivity.
Defined.

(** X9 on the demo request without its task, and without its brief. *)
Lemma pipeline_missing_task_or_brief_witness :
  let svc := demo_services all_well in
  process_request svc demo_config (without "task" (demo_request (PyInt 1)))
    idle = (Raise (KeyError "task"), idle)
  /\ process_request svc demo_config
       (without "brief" (demo_request (PyInt 1))) idle =
     (Raise (KeyError "brief"),
      advance idle 1 [EvDecodeAttachments (PyObj "[]")]).
Proof.
  intros svc. split.
  - apply (proj1 (pipeline_missing_task_or_brief svc demo_config
                    (without "task" (demo_request (PyInt 1))) idle)).
    vm_compute. reflexivity.
  - apply (proj2 (pipeline_missing_task_or_brief svc demo_config
                    (without "brief" (demo_request (PyInt 1))) idle)
             (PyStr "demo") []); vm_compute; reflexivity.
Defined.

(** X10 on the demo request without its round. *)
Lemma missing_round_runs_as_round_one_witness :
  let svc := demo_services all_well in
  let data := without "round" (demo_request (PyInt 1)) in
  let l := demo_locals (PyInt 1) in
  round_num l = PyInt 1
  /\ pages_events l = [EvEnablePages (task_id l)]
  /\ persist_key data (round_num l) idle = (Ok demo_key, idle)
  /\ fst (receive_request svc demo_config data idle) =
       Raise (KeyError "round").
Proof.
  intros svc data l.
  destruct (missing_round_runs_as_round_one svc demo_config data idle l
              (snd (prepare svc data idle))
              (PyStr "a@b.c") (PyStr "demo") (PyStr "n1"))
    as (H1 & H2 & H3 & H4); [vm_compute; reflexivity .. |].
  split; [exact H1 | split; [exact H2 | split; [exact (H3 idle)|]]].
  apply (H4 idle). vm_compute. reflexivity.
Defined.

(** X11 on the Round-2 demo request: the README read raises and
    generation is called without prior context. *)
Lemma readme_fetched_only_in_round_two_witness :
  trace (snd (prepare (demo_services all_well) (demo_request (PyInt 2)) idle))
  = [EvDecodeAttachments (PyObj "[]");
     EvCreateRepo (PyStr "demo") "Auto-generated app for task: a page";
     EvGetContents "README.md";
     EvGenerate (PyStr "a page") (PyObj "[]") (PyObj "[]") (PyInt 2) None].
Proof.
  apply (readme_fetched_only_in_round_two (demo_services all_well)
           (demo_request (PyInt 2)) idle (PyStr "demo") (PyStr "a page")
           [] 1 (Repo "https://github.com/octo/demo") 2);
    vm_compute; reflexivity.
Defined.

(** X12 on a Round-1 run whose commit lookup raises. *)
Lemma commit_lookup_failure_degrades_witness :
  let svc := demo_services sha_down in
  let data := demo_request (PyInt 1) in
  let l := demo_locals (PyInt 1) in
  let st3 := published sha_down l (PyInt 1) in
  exists w' body table,
    process_request svc demo_config data idle =
      (Ok tt,
       State w' (Stored table)
         (trace st3 ++ pages_events l ++ [EvGetCommits]
            ++ notify_events data body ++ [EvLoadLedger; EvSaveLedger table])
         (background_tasks st3))
    /\ p_commit_sha body = None
    /\ p_pages_url body = pages_outcome svc demo_config l (world st3)
    /\ table !! spec_idempotency_key (PyStr "a@b.c") (task_id l)
                  (round_num l) (PyStr "n1") = Some body.
Proof.
  intros svc data l st3.
  apply (commit_lookup_failure_degrades svc demo_config data idle l
           (prepared sha_down (PyInt 1)) st3 (PyStr "a@b.c") (PyStr "n1")
           (ServiceError ["IndexError"; "LookupError"]));
    vm_compute; reflexivity.
Defined.

(** X13 on a Round-1 run whose webhook raises. *)
Lemma notification_failure_is_swallowed_witness :
  let svc := demo_services notify_down in
  let data := demo_request (PyInt 1) in
  let l := demo_locals (PyInt 1) in
  let st3 := published notify_down l (PyInt 1) in
  let body :=
    payload_of svc demo_config data l (world st3) (PyStr "a@b.c")
      (task_id l) (PyStr "n1") in
  let st' := snd (process_request svc demo_config data idle) in
  fst (process_request svc demo_config data idle) = Ok tt
  /\ ledger_file st' =
       Stored (<[spec_idempotency_key (PyStr "a@b.c") (task_id l)
                   (round_num l) (PyStr "n1") := body]>
                 (table_of (ledger_file st3)))
  /\ notifications (trace st') =
       notifications (trace st3) ++ notify_events data body
  /\ (data !! "evaluation_url" = None ->
      notifications (trace st') = notifications (trace st3)).
Proof.
  intros svc data l st3.
  apply (notification_failure_is_swallowed svc demo_config data idle l
           (prepared notify_down (PyInt 1)) st3 (PyStr "a@b.c") (PyStr "n1"));
    vm_compute; reflexivity.
Defined.

(** X14 on the demo request without its nonce. *)
Lemma missing_payload_field_aborts_after_publishing_witness :
  let svc := demo_services all_well in
  let data := without "nonce" (demo_request (PyInt 1)) in
  let l := demo_locals (PyInt 1) in
  let st3 := snd (publish svc l (snd (prepare svc data idle))) in
  exists k w,
    process_request svc demo_config data idle =
      (Raise (KeyError k),
       advance st3 w (pages_events l ++ [EvGetCommits]))
    /\ data !! k = None.
Proof.
  intros svc data l st3.
  apply (missing_payload_field_aborts_after_publishing svc demo_config data
           idle l (snd (prepare svc data idle)) st3).
  - vm_compute. reflexivity.
  - vm_compute. reflexivity.
  - right. vm_compute. reflexivity.
Defined.

(** X15 on the text attachment of the demo batch. *)
Lemma text_attachment_single_commit_witness :
  let svc := demo_services all_well in
  let r := Repo "https://github.com/octo/demo" in
  exists w,
    commit_attachment svc r demo_notes idle =
      (Ok tt,
       advance idle w
         [EvOpen "/tmp/notes.txt";
          EvCommitText "notes.txt"
            (utf8_decode_ignore svc (list_byte_of_string "/tmp/notes.txt"))
            "Add attachment notes.txt"]).
Proof.
  intros svc r.
  apply (text_attachment_single_commit svc r demo_notes idle
           (list_byte_of_string "/tmp/notes.txt"));
    [vm_compute; reflexivity | vm_compute; reflexivity | intros w; reflexivity].
Defined.

(** X16 on the binary attachment of the demo batch, with a repository
    that rejects binary uploads. *)
Lemma rejected_binary_has_no_backup_witness :
  let r := Repo "https://github.com/octo/demo" in
  exists w,
    commit_attachment binary_rejected r demo_logo idle =
      (Ok tt,
       advance idle w
         [EvOpen "/tmp/logo.png";
          EvCommitBinary "logo.png" (list_byte_of_string "/tmp/logo.png")
            "Add binary logo.png"]).
Proof.
  intros r.
  apply (rejected_binary_has_no_backup binary_rejected r demo_logo idle
           (list_byte_of_string "/tmp/logo.png")
           (ServiceError ["GithubException"]));
    [vm_compute; reflexivity | vm_compute; reflexivity | intros w; reflexivity].
Defined.

(** X18 on the demo request resubmitted with the round written as the
    string "1". *)
Lemma same_rendering_same_key_witness :
  let svc := demo_services all_well in
  let data := <["round" := PyStr "1"]> (demo_request (PyInt 1)) in
  intake_key data served = (Ok demo_key, served)
  /\ fst (receive_request svc demo_config data served) =
       Ok [("status", "ok"); ("note", "duplicate handled & re-notified")]
  /\ notifications (trace (snd (receive_request svc demo_config data served)))
     = notifications (trace served)
       ++ [EvNotify (dict_get data "evaluation_url" PyNone) demo_payload].
Proof.
  intros svc data.
  apply (same_rendering_same_key svc demo_config data served
           (PyStr "a@b.c") (PyStr "demo") (PyStr "1") (PyInt 1) (PyStr "n1")
           demo_payload); vm_compute; reflexivity.
Defined.

(** X19 on the Round-1 and the Round-2 demo requests. *)
Lemma integer_rounds_have_distinct_keys_witness :
  fst (intake_key (demo_request (PyInt 1)) idle)
  <> fst (intake_key (demo_request (PyInt 2)) served).
Proof.
  apply (integer_rounds_have_distinct_keys (demo_request (PyInt 1))
           (demo_request (PyInt 2)) (PyStr "a@b.c") (PyStr "demo")
           (PyStr "n1") 1%Z 2%Z idle served);
    vm_compute; congruence.
Defined.

(** X21 on a Round-1 run against a repository that rejects [index.html]. *)
Lemma failed_file_upsert_aborts_witness :
  let data := demo_request (PyInt 1) in
  let l := demo_locals (PyInt 1) in
  let st2 :=
    snd (round_specific index_rejected l
           (snd (prepare index_rejected data idle))) in
  exists w,
    process_request index_rejected demo_config data idle =
      (Raise (ServiceError ["GithubException"]),
       advance st2 w
         [EvCommitText "index.html" "<html></html>" "Add/Update index.html"]).
Proof.
  intros data l st2.
  apply (failed_file_upsert_aborts index_rejected demo_config data idle l
           (snd (prepare index_rejected data idle)) st2
           "index.html" "<html></html>" [("README.md", "# demo")]
           (ServiceError ["GithubException"]));
    vm_compute; reflexivity.
Defined.

Section GenerationFailure.

Context {W : Type} (svc : Services W) (cfg : Config).
Implicit Types (st : state W) (data : dict).

(** X1. When the generation call raises, whatever the exception, the
    handler of line 67 cannot be entered because the class it names is not
    bound in the module: the run ends with [NameError] right after the
    generation call, without the fallback page, without any repository
    write, notification or ledger write. *)
Theorem generation_failure_raises_name_error data st t b decoded w1 r w2 err :
  data !! "task" = Some t -> data !! "brief" = Some b ->
  let attachments := dict_get data "attachments" (PyObj "[]") in
  let round := dict_get data "round" (PyInt 1) in
  let description := "Auto-generated app for task: " +:+ py_str b in
  svc_decode_attachments svc attachments (world st) = (Ok decoded, w1) ->
  svc_create_repo svc t description w1 = (Ok r, w2) ->
  let prev_readme :=
    if py_eq_int round 2 then
      match fst (svc_get_contents svc r "README.md" w2) with
      | Ok content => Some (utf8_decode_ignore svc content)
      | Raise _ => None
      end
    else None in
  let w3 :=
    if py_eq_int round 2 then snd (svc_get_contents svc r "README.md" w2)
    else w2 in
  fst (svc_generate_app_code svc b attachments
         (dict_get data "checks" (PyObj "[]")) round prev_readme w3)
    = Raise err ->
  let run := process_request svc cfg data st in
  fst run = Raise (NameError "OpenAIError")
  /\ commits (trace (snd run)) = commits (trace st)
  /\ notifications (trace (snd run)) = notifications (trace st)
  /\ ledger_file (snd run) = ledger_file st.
Proof.
  intros Ht Hb attachments round description Hd Hc prev_readme w3 Hg run.
  assert (Hprep : fst (prepare svc data st) = Raise (NameError "OpenAIError")).
  { unfold prepare, bind, getitem, decode_attachments, create_repo,
      get_contents, generate_app_code, try_except, try_except_cls, ret.
    rewrite Ht. simpl. rewrite call_run. fold attachments. rewrite Hd, Hb.
    simpl. rewrite call_run. simpl. fold description. rewrite Hc. simpl.
    fold round. subst prev_readme w3. destruct (py_eq_int round 2).
    - rewrite call_run. simpl.
      destruct (svc_get_contents svc r "README.md" w2) as [[content|e] w3];
        simpl in *; rewrite call_run; simpl; by rewrite Hg.
    - rewrite call_run. simpl. by rewrite Hg. }
  subst run.
  destruct (process_request_cases svc cfg data st)
    as [(e & st1 & Hp & ->) | [(l & st1 & e & st2 & Hp & _)
                              | (l & st1 & st3 & Hp & _)]];
    rewrite Hp in Hprep; simpl in Hprep; [|discriminate..].
  injection Hprep as ->. split; [done|]. simpl.
  destruct (prepare_emits svc data st) as (evs & Htr & Hs).
  pose proof (prepare_keeps svc ledger_file data ledger_file_advance st) as Hk.
  rewrite Hp in Htr, Hk. simpl in Htr, Hk. rewrite Htr.
  split; [|split; [|done]].
  - rewrite commits_app, (commits_none is_setup evs); [|by intros [] | done].
    by rewrite app_nil_r.
  - rewrite notifications_app.
    assert (notifications evs = []) as ->; [|by rewrite app_nil_r].
    clear -Hs. induction Hs as [|e' evs He _ IH]; [done|].
    unfold notifications in *. simpl. by destruct e'.
Qed.

End GenerationFailure.

(** X1 on the Round-1 demo run whose generation call raises. *)
Lemma generation_failure_raises_name_error_witness :
  let run :=
    process_request (demo_services generation_down) demo_config
      (demo_request (PyInt 1)) idle in
  fst run = Raise (NameError "OpenAIError")
  /\ commits (trace (snd run)) = commits (trace idle)
  /\ notifications (trace (snd run)) = notifications (trace idle)
  /\ ledger_file (snd run) = ledger_file idle.
Proof.
  apply (generation_failure_raises_name_error (demo_services generation_down)
           demo_config (demo_request (PyInt 1)) idle (PyStr "demo")
           (PyStr "a page") [] 1 (Repo "https://github.com/octo/demo") 2
           (ServiceError
              ["RateLimitError"; "APIStatusError"; "APIError"; "OpenAIError"]));
    vm_compute; reflexivity.
Defined.

(** * The ledger read, whatever way it fails *)

Section OpenLedgerRuns.

Context {W : Type} (svc : Services W) (cfg : Config).
Implicit Types (st : state W) (data : dict) (l : locals).

Lemma load_processed_from_json_load :
  @load_processed W = load_processed_from json_load.
Proof. reflexivity. Qed.

Lemma receive_request_with_load_processed data :
  receive_request svc cfg data =
  receive_request_with svc cfg load_processed data.
Proof. reflexivity. Qed.

Lemma report_with_load_processed data l :
  report svc cfg data l = report_with svc cfg load_processed data l.
Proof. reflexivity. Qed.

Lemma process_request_with_load_processed data :
  process_request svc cfg data =
  process_request_with svc cfg load_processed data.
Proof. reflexivity. Qed.

Lemma path_exists_run st :
  path_exists st =
    (Ok (match ledger_file st with NoFile => false | _ => true end),
     advance st (world st) [EvLoadLedger]).
Proof. reflexivity. Qed.

(** The read of a store that exists, when [reader] raises. *)
Lemma load_processed_from_raise (reader : M W ledger) st err :
  ledger_file st <> NoFile ->
  reader (advance st (world st) [EvLoadLedger]) =
    (Raise err, advance st (world st) [EvLoadLedger]) ->
  load_processed_from reader st =
    (if isinstance err "JSONDecodeError" then Ok ∅ else Raise err,
     advance st (world st) [EvLoadLedger]).
Proof.
  intros Hfile Hread.
  unfold load_processed_from, bind. rewrite path_exists_run.
  destruct (ledger_file st) as [| raw | table] eqn:Hf; [done | |];
    unfold try_except_cls; rewrite Hread; simpl;
    by destruct (isinstance err "JSONDecodeError").
Qed.

End OpenLedgerRuns.

Section CorruptLedger.

Context {W : Type} (svc : Services W) (cfg : Config).
Implicit Types (st : state W) (data : dict) (l : locals).

(** C5, as the code has it. Take a store that exists and on which the
    read [json.load(open(..))] raises [err] (and changes nothing).  If
    [err] is a [JSONDecodeError], the handler of lines 28-29 turns it into
    the empty ledger: the read raises nothing, the intake handler sees no
    duplicate and accepts the request, and the persistence step replaces
    the stored contents by a table holding the new entry only.  If [err]
    is any other exception, it propagates: the read raises [err], the
    intake handler aborts with [err] having scheduled nothing, and the
    pipeline aborts with [err] at Step 8 without writing; in both cases
    the stored ledger is left as it was. *)
Theorem C5_corrupt_ledger_reads_empty (reader : M W ledger) st err :
  ledger_file st <> NoFile ->
  (forall s, ledger_file s = ledger_file st -> reader s = (Raise err, s)) ->
  let caught := isinstance err "JSONDecodeError" in
  let seen := advance st (world st) [EvLoadLedger] in
  load_processed_from reader st = (if caught then Ok ∅ else Raise err, seen)
  /\ ledger_file (snd (load_processed_from reader st)) = ledger_file st
  /\ (forall data e t r n,
        dict_get data "secret" PyNone = of_env (USER_SECRET cfg) ->
        data !! "email" = Some e -> data !! "task" = Some t ->
        data !! "round" = Some r -> data !! "nonce" = Some n ->
        receive_request_with svc cfg (load_processed_from reader) data st =
          if caught then
            (Ok [("status", "accepted");
                 ("note", "processing round " +:+ py_str r +:+ " started")],
             State (world st) (ledger_file st) (trace st ++ [EvLoadLedger])
                   (background_tasks st ++ [data]))
          else (Raise err, seen))
  /\ (forall data l e t n,
        data !! "email" = Some e -> data !! "task" = Some t ->
        data !! "nonce" = Some n ->
        let body := payload_of svc cfg data l (world st) e t n in
        let key := spec_idempotency_key e t (round_num l) n in
        let calls :=
          pages_events l ++ [EvGetCommits] ++ notify_events data body
          ++ [EvLoadLedger] in
        exists w',
          report_with svc cfg (load_processed_from reader) data l st =
            if caught then
              (Ok tt,
               State w' (Stored {[ key := body ]})
                 (trace st ++ calls ++ [EvSaveLedger {[ key := body ]}])
                 (background_tasks st))
            else
              (Raise err,
               State w' (ledger_file st) (trace st ++ calls)
                     (background_tasks st))).
Proof.
  intros Hfile Hread caught seen.
  assert (Hload : forall s,
    ledger_file s = ledger_file st ->
    load_processed_from reader s =
      (if caught then Ok ∅ else Raise err,
       advance s (world s) [EvLoadLedger])).
  { intros s Hs. apply load_processed_from_raise; [congruence|].
    apply Hread. by rewrite ledger_file_advance. }
  split; [by apply Hload | split; [by rewrite Hload | split]].
  - intros data e t r n Hs He Ht Hr Hn. unfold receive_request_with.
    apply py_eq_env_spec in Hs. rewrite Hs. simpl.
    unfold bind at 1. rewrite (Hload st eq_refl). fold seen.
    destruct caught; [|done].
    unfold bind at 1. rewrite (intake_key_run _ _ _ _ _ _ He Ht Hr Hn).
    rewrite lookup_empty. unfold bind, add_task. simpl.
    by rewrite (getitem_Some _ _ _ _ Hr).
  - intros data l e t n He Ht Hn body key calls. unfold report_with.
    unfold bind at 1. rewrite pages_handling_run.
    unfold bind at 1. rewrite resolve_commit_sha_run.
    unfold bind at 1. rewrite (getitem_Some _ _ _ _ He).
    unfold bind at 1. rewrite (getitem_Some _ _ _ _ Ht).
    unfold bind at 1. rewrite (getitem_Some _ _ _ _ Hn).
    unfold bind at 1. rewrite notify_step_run.
    unfold bind at 1. rewrite Hload by done.
    rewrite !advance_advance. simpl. fold body.
    destruct caught.
    + unfold bind at 1. rewrite (persist_key_run _ _ _ _ _ _ He Ht Hn).
      rewrite save_processed_run. simpl. fold key. rewrite insert_empty.
      eexists. f_equal.
      all: subst calls; unfold advance; simpl; f_equal; by simplify_list_eq.
    + eexists. f_equal.
      all: subst calls; unfold advance; simpl; f_equal; by simplify_list_eq.
Qed.

End CorruptLedger.

(** C5 on a store holding text that is not JSON, read by [json_load], and
    on a store that cannot be opened. *)
Lemma C5_corrupt_ledger_reads_empty_witness :
  (load_processed corrupted =
     (Ok ∅, advance corrupted (world corrupted) [EvLoadLedger])
   /\ ledger_file (snd (load_processed corrupted)) = Corrupt "{oops")
  /\ (load_processed_from unreadable_read served =
        (Raise (ServiceError ["PermissionError"; "OSError"]),
         advance served (world served) [EvLoadLedger])
      /\ ledger_file (snd (load_processed_from unreadable_read served)) =
           ledger_file served).
Proof.
  split.
  - destruct (C5_corrupt_ledger_reads_empty (demo_services all_well)
                demo_config json_load corrupted
                (ServiceError ["JSONDecodeError"; "ValueError"]))
      as (H1 & H2 & _).
    + vm_compute. discriminate.
    + intros s Hs. unfold json_load. rewrite Hs. reflexivity.
    + exact (conj H1 H2).
  - destruct (C5_corrupt_ledger_reads_empty (demo_services all_well)
                demo_config unreadable_read served
                (ServiceError ["PermissionError"; "OSError"]))
      as (H1 & H2 & _).
    + vm_compute. discriminate.
    + intros s Hs. reflexivity.
    + exact (conj H1 H2).
Defined.

(** * One failing attachment among others that go through *)

Section ContainedFailure.

Context {W : Type} (svc : Services W) (cfg : Config).
Implicit Types (st : state W) (data : dict) (l : locals) (r : repo).

Lemma attachment_ok r a st :
  attachment_goes_through svc r a ->
  exists w content,
    commit_attachment svc r a st =
      (Ok tt, advance st w (attachment_calls svc a content)).
Proof.
  intros (Hread & Htext & Hbin & Hbackup).
  unfold commit_attachment, try_except, bind, open_read,
    create_or_update_file, create_or_update_binary_file,
    attachment_calls, attachment_commits.
  rewrite call_run. destruct (Hread (world st)) as [content Hc]. rewrite Hc.
  destruct (is_text a).
  - rewrite call_run, Htext. simpl. rewrite advance_advance. by eexists _, _.
  - rewrite call_run, Hbin. simpl. rewrite call_run, Hbackup. simpl.
    rewrite !advance_advance. by eexists _, _.
Qed.

Lemma attachments_ok r atts st :
  (forall a, a ∈ atts -> attachment_goes_through svc r a) ->
  exists w contents,
    length contents = length atts
    /\ for_each atts (commit_attachment svc r) st =
         (Ok tt,
          advance st w (concat (zip_with (attachment_calls svc) atts contents))).
Proof.
  revert st. induction atts as [|a atts IH]; intros st Hall.
  - exists (world st), []. by rewrite advance_nil.
  - simpl. unfold bind.
    destruct (attachment_ok r a st) as (w1 & content & ->);
      [apply Hall; by left|].
    destruct (IH (advance st w1 (attachment_calls svc a content)))
      as (w2 & contents & Hlen & ->);
      [intros a' Ha'; apply Hall; by right|].
    exists w2, (content :: contents). simpl. rewrite Hlen.
    by rewrite advance_advance.
Qed.

Lemma file_loop_ok l st :
  common_steps_go_through svc l ->
  forall fs, fs ⊆ files l ->
  forall s,
  exists w,
    for_each fs (fun '(fname, content) =>
      create_or_update_file svc (the_repo l) fname content
        ("Add/Update " +:+ fname)) s =
    (Ok tt,
     advance s w
       (map (fun '(fname, content) =>
               EvCommitText fname content ("Add/Update " +:+ fname)) fs)).
Proof.
  intros (Hfiles & _) fs. induction fs as [|[f c] fs IH]; intros Hsub s.
  - exists (world s). by rewrite advance_nil.
  - simpl. unfold bind. unfold create_or_update_file at 1.
    rewrite call_run, Hfiles by (apply Hsub; by left). cbv beta iota.
    destruct (IH (fun x Hx => Hsub x (list_elem_of_further _ _ _ Hx))
                 (advance s
                    (snd (svc_create_or_update_file svc (the_repo l) f c
                            ("Add/Update " +:+ f) (world s)))
                    [EvCommitText f c ("Add/Update " +:+ f)])) as [w ->].
    exists w. by rewrite advance_advance.
Qed.

Lemma common_steps_ok l st :
  common_steps_go_through svc l ->
  exists w mit_text,
    common_steps svc l st =
      (Ok tt,
       advance st w
         (file_commits l
          ++ [EvMitLicense;
              EvCommitText "LICENSE" mit_text "Add MIT license"])).
Proof.
  intros Hgo. unfold common_steps. unfold bind at 1.
  destruct (file_loop_ok l st Hgo (files l) (fun x Hx => Hx) st) as [w1 ->].
  destruct Hgo as (_ & Hmit & Hlic).
  unfold bind, generate_mit_license, create_or_update_file.
  rewrite call_run. simpl. destruct (Hmit w1) as [text Htext].
  rewrite Htext. rewrite call_run, Hlic. simpl.
  rewrite !advance_advance. by eexists _, _.
Qed.

(** C9. In Round 1, let one attachment of the batch behave in any way
    (its read, its text commit, its binary upload or its backup may
    raise), while the reads and upserts of the other attachments and of
    Step 4 succeed.  Then every other attachment, before and after it, is
    read and committed in full; the failing one costs its read and
    whatever it managed to do; and the run goes on to completion: the
    generated files and the license are committed, hosting activation and
    the commit lookup are called, the payload is notified and the ledger
    entry is written. *)
Theorem C9_attachment_failures_contained data st l st1 before bad after e n :
  prepare svc data st = (Ok l, st1) ->
  py_eq_int (round_num l) 1 = true ->
  saved_info l = before ++ bad :: after ->
  (forall a, a ∈ before ++ after ->
             attachment_goes_through svc (the_repo l) a) ->
  common_steps_go_through svc l ->
  data !! "email" = Some e -> data !! "nonce" = Some n ->
  exists read_before bad_calls read_after mit_text w' body table,
    length read_before = length before
    /\ length read_after = length after
    /\ process_request svc cfg data st =
         (Ok tt,
          State w' (Stored table)
            (trace st1
             ++ concat (zip_with (attachment_calls svc) before read_before)
             ++ EvOpen (att_path bad) :: bad_calls
             ++ concat (zip_with (attachment_calls svc) after read_after)
             ++ file_commits l
             ++ [EvMitLicense;
                 EvCommitText "LICENSE" mit_text "Add MIT license";
                 EvEnablePages (task_id l); EvGetCommits]
             ++ notify_events data body
             ++ [EvLoadLedger; EvSaveLedger table])
            (background_tasks st1))
    /\ table !! spec_idempotency_key e (task_id l) (round_num l) n
       = Some body.
Proof.
  intros Hp Hround Hsplit Hothers Hcommon He Hn.
  destruct (prepare_locals svc _ _ _ _ Hp) as (_ & Ht & _).
  destruct (attachments_ok (the_repo l) before st1)
    as (w1 & read_before & Hlb & Hb).
  { intros a Ha. apply Hothers, elem_of_app. by left. }
  set (s1 := advance st1 w1
               (concat (zip_with (attachment_calls svc) before read_before)))
    in *.
  destruct (commit_attachment_total svc (the_repo l) bad s1)
    as (w2 & bad_calls & Hbad).
  set (s2 := advance s1 w2 (EvOpen (att_path bad) :: bad_calls)) in *.
  destruct (attachments_ok (the_repo l) after s2)
    as (w3 & read_after & Hla & Ha).
  { intros a Ha'. apply Hothers, elem_of_app. by right. }
  set (s3 := advance s2 w3
               (concat (zip_with (attachment_calls svc) after read_after)))
    in *.
  destruct (common_steps_ok l s3 Hcommon) as (w4 & mit_text & Hcs).
  set (s4 := advance s3 w4
               (file_commits l
                ++ [EvMitLicense;
                    EvCommitText "LICENSE" mit_text "Add MIT license"]))
    in *.
  assert (Hrs : round_specific svc l st1 = (Ok tt, s3)).
  { unfold round_specific. rewrite Hround, Hsplit, for_each_app.
    unfold bind at 1. rewrite Hb. simpl. unfold bind at 1.
    rewrite Hbad. exact Ha. }
  assert (Hpub : (round_specific svc l ;;; common_steps svc l) st1
                 = (Ok tt, s4)).
  { unfold bind. by rewrite Hrs, Hcs. }
  rewrite (process_request_reaches svc cfg _ _ _ _ _ Hp Hpub).
  destruct (report_run svc cfg data l s4 e (task_id l) n He Ht Hn)
    as (w' & ->).
  eexists read_before, bad_calls, read_after, mit_text, w', _, _.
  split; [done | split; [done | split; [|apply lookup_insert_eq]]].
  f_equal. unfold pages_events. rewrite Hround.
  subst s4 s3 s2 s1. unfold advance. simpl. f_equal.
  by simplify_list_eq.
Qed.

End ContainedFailure.

Lemma demo_attachment_goes_through r a :
  a ∈ [demo_notes] ++ [demo_data_csv] ->
  attachment_goes_through (demo_services second_unreadable) r a.
Proof.
  intros Ha. simpl in Ha.
  apply elem_of_cons in Ha as [->|Ha];
    [|apply list_elem_of_singleton in Ha as ->];
    (split; [intros w; eexists; vm_compute; reflexivity |]);
    repeat split; intros; reflexivity.
Defined.

Lemma demo_common_steps_go_through :
  common_steps_go_through (demo_services second_unreadable) three_locals.
Proof.
  split; [intros; reflexivity | split; intros; [eexists|]; reflexivity].
Defined.

(** C9 on a batch of three attachments whose second cannot be opened. *)
Lemma C9_attachment_failures_contained_witness :
  let svc := demo_services second_unreadable in
  let data := demo_request (PyInt 1) in
  let l := three_locals in
  let st1 := prepared second_unreadable (PyInt 1) in
  exists read_before bad_calls read_after mit_text w' body table,
    length read_before = length [demo_notes]
    /\ length read_after = length [demo_data_csv]
    /\ process_request svc demo_config data idle =
         (Ok tt,
          State w' (Stored table)
            (trace st1
             ++ concat (zip_with (attachment_calls svc) [demo_notes]
                          read_before)
             ++ EvOpen (att_path demo_logo) :: bad_calls
             ++ concat (zip_with (attachment_calls svc) [demo_data_csv]
                          read_after)
             ++ file_commits l
             ++ [EvMitLicense;
                 EvCommitText "LICENSE" mit_text "Add MIT license";
                 EvEnablePages (task_id l); EvGetCommits]
             ++ notify_events data body
             ++ [EvLoadLedger; EvSaveLedger table])
            (background_tasks st1))
    /\ table !! spec_idempotency_key (PyStr "a@b.c") (task_id l)
                  (round_num l) (PyStr "n1") = Some body.
Proof.
  intros svc data l st1.
  apply (C9_attachment_failures_contained svc demo_config data idle l st1
           [demo_notes] demo_logo [demo_data_csv] (PyStr "a@b.c")
           (PyStr "n1")).
  - vm_compute. reflexivity.
  - vm_compute. reflexivity.
  - vm_compute. reflexivity.
  - apply demo_attachment_goes_through.
  - apply demo_common_steps_go_through.
  - vm_compute. reflexivity.
  - vm_compute. reflexivity.
Defined.

(** C3 as stated fails: the entry is written only at the end of a run, so
    a request submitted twice before its first run has finished is
    accepted and scheduled twice, and the two runs each make the whole
    round of repository writes for the same key. *)
Lemma C3_double_scheduling_counterexample :
  let svc := demo_services all_well in
  let data := demo_request (PyInt 1) in
  let first := receive_request svc demo_config data idle in
  let second := receive_request svc demo_config data (snd first) in
  let run1 := process_request svc demo_config data (snd second) in
  let run2 := process_request svc demo_config data (snd run1) in
  fst (intake_key data idle) = Ok demo_key
  /\ fst first =
       Ok [("status", "accepted"); ("note", "processing round 1 started")]
  /\ fst second =
       Ok [("status", "accepted"); ("note", "processing round 1 started")]
  /\ background_tasks (snd second) = [data; data]
  /\ fst run1 = Ok tt /\ fst run2 = Ok tt
  /\ length (commits (trace (snd run1))) = 5
  /\ commits (trace (snd run2)) =
       commits (trace (snd run1)) ++ commits (trace (snd run1))
  /\ ~ (length (commits (trace (snd run2)))
        <= length (commits (trace (snd run1)))).
Proof. vm_compute. repeat split; try reflexivity. lia. Qed.
